(** * Smart irrigation controller (C8051F380): decision engine and servo sweep

    A shallow embedding of [MainProject_Menu.c]: the globals of the program,
    [runProject] with its chain of early returns, the servo sweep, and the
    menu handling of [main]'s loop, together with the properties the
    specification states about them.

    Conventions of the embedding.
    - The Keil C51 [int] is 16 bits wide and signed, [unsigned int] is 16 bits
      wide; arithmetic that the program performs on them is written with its
      wrap-around ([s16], [u16]).
    - [temp] is a [float] filled by [readTemp] from the 9-bit reading of the
      LM75, a finite number of half degrees.  A finite float is a rational, and
      the comparison with the 16-bit threshold converts the threshold exactly,
      so [temp] is carried as a rational number [Q].
    - Procedures run in a small monad over the machine state that records the
      hardware events and the conditions tested, in program order, and
      supports the C [return] statement.
    - LCD output ([printf], [LCD_setCursor], the screen drawing functions)
      neither reads back nor writes any variable of the program; it is left
      out of the event log. *)

From Stdlib Require Import ZArith QArith Bool List Lia.
Import ListNotations.

Local Open Scope Z_scope.

(** ** Machine integers *)

Module Int16.

Definition modulus : Z := 65536.

(** Value of an [unsigned int] after an arithmetic operation. *)
Definition u16 (z : Z) : Z := z mod modulus.

(** Value of an [int] after an arithmetic operation. *)
Definition s16 (z : Z) : Z := (z + 32768) mod modulus - 32768.

End Int16.
Import Int16.

(** ** Thresholds *)

Definition SOIL_THRESHOLD : Z := 40.
Definition RAIN_THRESHOLD : Z := 80.
Definition LIGHT_THRESHOLD : Z := 70.

(** ** Program state *)

(** The globals of [MainProject_Menu.c], the relay pin P0.2 ([Relay]) and the
    local [screen] of [main], which lives across the iterations of its loop. *)
Record Machine : Type := mkMachine {
  temp : Q;
  TEMP_THRESHOLD : Z;
  directionUp : Z;
  angle : Z;
  hour : Z;
  minute : Z;
  second : Z;
  rain : Z;
  soil : Z;
  light : Z;
  runFlag : bool;
  Relay : bool;
  screen : Z
}.

(** State at the entry of [main]'s loop.  [directionUp] has no initialiser and
    static storage, so it starts at zero, like the sensor variables;
    [Init_Device] clears P0.2. *)
Definition initial : Machine :=
  {| temp := 0; TEMP_THRESHOLD := 27; directionUp := 0; angle := 1500;
     hour := 0; minute := 0; second := 0; rain := 0; soil := 0; light := 0;
     runFlag := false; Relay := false; screen := 0 |}.

Definition set_Relay (b : bool) (m : Machine) : Machine :=
  mkMachine (temp m) (TEMP_THRESHOLD m) (directionUp m) (angle m) (hour m)
            (minute m) (second m) (rain m) (soil m) (light m) (runFlag m) b
            (screen m).

Definition set_angle (a : Z) (m : Machine) : Machine :=
  mkMachine (temp m) (TEMP_THRESHOLD m) (directionUp m) a (hour m)
            (minute m) (second m) (rain m) (soil m) (light m) (runFlag m)
            (Relay m) (screen m).

Definition set_directionUp (d : Z) (m : Machine) : Machine :=
  mkMachine (temp m) (TEMP_THRESHOLD m) d (angle m) (hour m)
            (minute m) (second m) (rain m) (soil m) (light m) (runFlag m)
            (Relay m) (screen m).

Definition set_runFlag (b : bool) (m : Machine) : Machine :=
  mkMachine (temp m) (TEMP_THRESHOLD m) (directionUp m) (angle m) (hour m)
            (minute m) (second m) (rain m) (soil m) (light m) b
            (Relay m) (screen m).

Definition set_screen (s : Z) (m : Machine) : Machine :=
  mkMachine (temp m) (TEMP_THRESHOLD m) (directionUp m) (angle m) (hour m)
            (minute m) (second m) (rain m) (soil m) (light m) (runFlag m)
            (Relay m) s.

Definition set_hour (h : Z) (m : Machine) : Machine :=
  mkMachine (temp m) (TEMP_THRESHOLD m) (directionUp m) (angle m) h
            (minute m) (second m) (rain m) (soil m) (light m) (runFlag m)
            (Relay m) (screen m).

Definition set_minute (mi : Z) (m : Machine) : Machine :=
  mkMachine (temp m) (TEMP_THRESHOLD m) (directionUp m) (angle m) (hour m)
            mi (second m) (rain m) (soil m) (light m) (runFlag m)
            (Relay m) (screen m).

Definition set_TEMP_THRESHOLD (t : Z) (m : Machine) : Machine :=
  mkMachine (temp m) t (directionUp m) (angle m) (hour m)
            (minute m) (second m) (rain m) (soil m) (light m) (runFlag m)
            (Relay m) (screen m).

(** ** Events and procedures *)

(** The five guards of [runProject], named after what they read. *)
Inductive Guard : Type := GSoil | GWindow | GLight | GRain | GTemp.

Inductive Event : Type :=
| EvTest (g : Guard)            (* a guard of [runProject] was evaluated *)
| EvRelayOff                    (* [Relay_Off()] *)
| EvRelayOn                     (* [Relay_On()] *)
| EvPulse (us : Z)              (* [pulse(us)] *)
| EvDelay (ms : Z)              (* [delay_ms(ms)] *)
| EvWriteDS1307 (reg val : Z).  (* [writeDS1307(reg, val)] *)

(** How a statement ends: it falls through to the next one, or it executed
    [return]. *)
Inductive Flow : Type := Next | Return.

Definition Proc : Type := Machine -> Flow * Machine * list Event.

Definition skip : Proc := fun m => (Next, m, []).

Definition return_ : Proc := fun m => (Return, m, []).

Definition seq (p q : Proc) : Proc :=
  fun m =>
    match p m with
    | (Next, m1, l1) =>
        match q m1 with (f, m2, l2) => (f, m2, l1 ++ l2) end
    | (Return, m1, l1) => (Return, m1, l1)
    end.

Notation "p ;; q" := (seq p q) (at level 61, right associativity).

Definition emit (e : Event) : Proc := fun m => (Next, m, [e]).

Definition assign (f : Machine -> Machine) : Proc := fun m => (Next, f m, []).

(** [if (c) { body }] and [if (c) { p } else { q }]. *)
Definition If (c : Machine -> bool) (body : Proc) : Proc :=
  fun m => if c m then body m else skip m.

Definition IfElse (c : Machine -> bool) (p q : Proc) : Proc :=
  fun m => if c m then p m else q m.

(** A guard of [runProject]: the condition is evaluated (and logged), then
    the body runs when it holds. *)
Definition IfG (g : Guard) (c : Machine -> bool) (body : Proc) : Proc :=
  emit (EvTest g) ;; If c body.

(** A call: the callee's [return] ends the callee only. *)
Definition call (p : Proc) : Proc :=
  fun m => match p m with (_, m1, l1) => (Next, m1, l1) end.

Definition exec (p : Proc) (m : Machine) : Machine := snd (fst (p m)).
Definition trace (p : Proc) (m : Machine) : list Event := snd (p m).

(** ** Hardware helpers declared in [my_private_header.h] *)

(** Modelled from the spec: [Relay_Off], [Relay_On], [pulse] and [delay_ms]
    are declared in headers that are not part of the sources.  The relay
    helpers drive the [Relay] bit (P0.2, 1 = pump on), which [main] reads
    back; [pulse] loads the PCA compare register and [delay_ms] waits: both
    leave the program's variables alone. *)
Definition Relay_Off : Proc := emit EvRelayOff ;; assign (set_Relay false).
Definition Relay_On : Proc := emit EvRelayOn ;; assign (set_Relay true).
Definition pulse (us : Machine -> Z) : Proc := fun m => emit (EvPulse (us m)) m.
Definition delay_ms (ms : Z) : Proc := emit (EvDelay ms).

(** ** [runProject] *)

(** [((hour >= 4) && (hour < 8)) || ((hour >= 19) && (hour < 22))] *)
Definition in_window (h : Z) : bool :=
  ((4 <=? h) && (h <? 8)) || ((19 <=? h) && (h <? 22)).

(** [temp >= TEMP_THRESHOLD], the threshold converted to [float]. *)
Definition temp_too_high (m : Machine) : bool :=
  Qle_bool (inject_Z (TEMP_THRESHOLD m)) (temp m).

(** [angle += 30] and [angle -= 30] on an [unsigned int]. *)
Definition stepped_up (a : Z) : Z := u16 (a + 30).
Definition stepped_down (a : Z) : Z := u16 (a - 30).

(** The servo sweep, lines 361-373. *)
Definition sweep : Proc :=
  IfElse (fun m => negb (directionUp m =? 0))
    (assign (fun m => set_angle (stepped_up (angle m)) m) ;;
     If (fun m => 2400 <=? angle m)
        (assign (set_angle 2400) ;;
         assign (set_directionUp 0)))
    (assign (fun m => set_angle (stepped_down (angle m)) m) ;;
     If (fun m => angle m <=? 600)
        (assign (set_angle 600) ;;
         assign (set_directionUp 1))).

Definition runProject : Proc :=
  IfG GSoil (fun m => soil m <? SOIL_THRESHOLD)
      (Relay_Off ;; return_) ;;
  IfG GWindow (fun m => negb (in_window (hour m)))
      (Relay_Off ;; return_) ;;
  IfG GLight (fun m => LIGHT_THRESHOLD <=? light m)
      (Relay_Off ;; return_) ;;
  IfG GRain (fun m => rain m <? RAIN_THRESHOLD)
      (Relay_Off ;; return_) ;;
  IfG GTemp temp_too_high
      (Relay_Off ;; return_) ;;
  Relay_On ;;
  sweep ;;
  pulse angle ;;
  delay_ms 20.

(** ** The loop of [main] *)

(** What one iteration of the loop obtains from the peripherals: the LM75
    temperature, the three DS1307 registers, the three ADC channels, and the
    button that [ButtonTouch] reports for the touch position (0: none). *)
Record Inputs : Type := mkInputs {
  in_temp : Q;
  in_hour : Z;
  in_minute : Z;
  in_second : Z;
  adc_light : Z;
  adc_soil : Z;
  adc_rain : Z;
  in_button : Z
}.

(** [(ADC_IN_CHANNEL(ch) * 10) / 102]: C division truncates.  The ADC is a
    10-bit converter, so the product stays below 2^15. *)
Definition to_percent (raw : Z) : Z := Z.quot (raw * 10) 102.

(** Part (A) of the loop: the sensor variables are overwritten. *)
Definition read_sensors (i : Inputs) (m : Machine) : Machine :=
  mkMachine (in_temp i) (TEMP_THRESHOLD m) (directionUp m) (angle m)
            (in_hour i) (in_minute i) (in_second i)
            (to_percent (adc_rain i)) (to_percent (adc_soil i))
            (to_percent (adc_light i))
            (runFlag m) (Relay m) (screen m).

(** Part (D.2): the buttons of the Setup screen. *)
Definition setup_buttons (ButtonNum : Z) : Proc :=
  IfElse (fun _ => ButtonNum =? 13)
    (assign (fun m => set_hour (s16 (hour m + 1)) m) ;;
     If (fun m => 24 <=? hour m) (assign (set_hour 0)) ;;
     (fun m => emit (EvWriteDS1307 2 (hour m)) m))
  (IfElse (fun _ => ButtonNum =? 14)
    (IfElse (fun m => hour m =? 0)
       (assign (set_hour 23))
       (assign (fun m => set_hour (s16 (hour m - 1)) m)) ;;
     (fun m => emit (EvWriteDS1307 2 (hour m)) m))
  (IfElse (fun _ => ButtonNum =? 15)
    (assign (fun m => set_minute (s16 (minute m + 1)) m) ;;
     If (fun m => 60 <=? minute m) (assign (set_minute 0)) ;;
     (fun m => emit (EvWriteDS1307 1 (minute m)) m))
  (IfElse (fun _ => ButtonNum =? 16)
    (IfElse (fun m => minute m =? 0)
       (assign (set_minute 59))
       (assign (fun m => set_minute (s16 (minute m - 1)) m)) ;;
     (fun m => emit (EvWriteDS1307 1 (minute m)) m))
  (If (fun _ => ButtonNum =? 17)
    (assign (fun m => set_TEMP_THRESHOLD (s16 (TEMP_THRESHOLD m + 1)) m) ;;
     If (fun m => 30 <? TEMP_THRESHOLD m) (assign (set_TEMP_THRESHOLD 20)) ;;
     (fun m => emit (EvWriteDS1307 6 (TEMP_THRESHOLD m)) m)))))).

(** Part (D): menu navigation.  The buttons of the Check screen (D.1) only
    print. *)
Definition menu (ButtonNum : Z) : Proc :=
  If (fun _ => negb (ButtonNum =? 0))
    (IfElse (fun _ => ButtonNum =? 1)
       (assign (set_screen 1) ;;
        assign (set_runFlag false) ;;
        Relay_Off)
    (IfElse (fun _ => ButtonNum =? 2)
       (assign (set_screen 2) ;;
        assign (set_runFlag false) ;;
        Relay_Off)
    (If (fun _ => ButtonNum =? 3)
       (assign (set_screen 3) ;;
        assign (set_runFlag true)))) ;;
     If (fun m => screen m =? 1) skip ;;
     If (fun m => screen m =? 2) (setup_buttons ButtonNum)).

(** One iteration of [while(1)]. *)
Definition loop_body (i : Inputs) : Proc :=
  delay_ms 20 ;;
  assign (read_sensors i) ;;
  If runFlag (call runProject) ;;
  menu (in_button i).

Definition tick (i : Inputs) (m : Machine) : Machine := exec (loop_body i) m.

(** The machine after the iterations fed with [l], oldest first. *)
Definition run (l : list Inputs) (m : Machine) : Machine :=
  fold_left (fun m i => tick i m) l m.

(** [n] consecutive calls of [runProject] on unchanged sensor values. *)
Definition calls (n : nat) (m : Machine) : Machine :=
  Nat.iter n (exec runProject) m.

(** ** Vocabulary of the specification *)

(** The five conditions of section 4.1, in the polarity of the specification. *)
Definition soil_ok (m : Machine) : bool := SOIL_THRESHOLD <=? soil m.
Definition window_ok (m : Machine) : bool := in_window (hour m).
Definition light_ok (m : Machine) : bool := light m <? LIGHT_THRESHOLD.
Definition rain_ok (m : Machine) : bool := RAIN_THRESHOLD <=? rain m.
Definition temp_ok (m : Machine) : bool := negb (temp_too_high m).

Definition conditions_met (m : Machine) : bool :=
  soil_ok m && window_ok m && light_ok m && rain_ok m && temp_ok m.

(** A chain of named conditions evaluated left to right up to and including
    the first that fails: the names evaluated, and whether all hold. *)
Fixpoint chain (cs : list (Guard * bool)) : list Guard * bool :=
  match cs with
  | [] => ([], true)
  | (g, ok) :: rest =>
      if ok then let (gs, b) := chain rest in (g :: gs, b) else ([g], false)
  end.

(** The guards that an event log shows as evaluated, in order. *)
Fixpoint tested (l : list Event) : list Guard :=
  match l with
  | [] => []
  | EvTest g :: r => g :: tested r
  | _ :: r => tested r
  end.

(** The sweep direction as a truth value ([if (directionUp)]). *)
Definition is_up (m : Machine) : bool := negb (directionUp m =? 0).

(** Pulse widths of the sweep state's domain. *)
Definition in_range (a : Z) : Prop := 600 <= a <= 2400.

(** Conditions 1-5 of section 4.1. *)
Definition all_conditions (m : Machine) : Prop :=
  40 <= soil m /\
  (4 <= hour m < 8 \/ 19 <= hour m < 22) /\
  light m < 70 /\
  80 <= rain m /\
  (temp m < inject_Z (TEMP_THRESHOLD m))%Q.

(** What holds of every sweep state the program reaches: the pulse width is
    a multiple of 30 in range, and at a bound the direction points inwards. *)
Definition sweep_inv (m : Machine) : Prop :=
  in_range (angle m) /\
  angle m mod 30 = 0 /\
  (angle m = 2400 -> is_up m = false) /\
  (angle m = 600 -> is_up m = true).

(** The one write to the threshold, by button 17 of the Setup screen:
    [TEMP_THRESHOLD++; if (TEMP_THRESHOLD > 30) TEMP_THRESHOLD = 20;]. *)
Definition next_threshold (t : Z) : Z :=
  if 30 <? s16 (t + 1) then 20 else s16 (t + 1).

(** ** Sample machines and inputs *)

(** Readings under which all five conditions hold: 05:00, soil and rain
    channels at full scale (100 %), a dark light channel, 20 degrees. *)
Definition good_inputs (button : Z) : Inputs :=
  mkInputs 20 5 0 0 0 1023 1023 button.

(** A machine on which all five conditions hold, each at its limit (the
    scenario of section 8: soil 40, 05:00, light 69, rain 80, 26.9 degrees
    against a threshold of 27), mid-sweep and heading up. *)
Definition watering : Machine :=
  {| temp := 26.9; TEMP_THRESHOLD := 27; directionUp := 1; angle := 1500;
     hour := 5; minute := 0; second := 0; rain := 80; soil := 40; light := 69;
     runFlag := true; Relay := false; screen := 3 |}.

(** The same machine with moist soil: condition 1 fails. *)
Definition moist : Machine :=
  {| temp := 26.9; TEMP_THRESHOLD := 27; directionUp := 1; angle := 1500;
     hour := 5; minute := 0; second := 0; rain := 80; soil := 39; light := 69;
     runFlag := true; Relay := true; screen := 3 |}.

(** The machine after "Setup" and four presses of button 17: the threshold
    went 27, 28, 29, 30, 20. *)
Definition at_twenty : Machine :=
  run (good_inputs 2 :: repeat (good_inputs 17) 4) initial.

(** A machine with the clock variables replaced, as a reading of the
    DS1307 leaves them. *)
Definition set_time (h mi s : Z) (m : Machine) : Machine :=
  mkMachine (temp m) (TEMP_THRESHOLD m) (directionUp m) (angle m)
            h mi s (rain m) (soil m) (light m) (runFlag m)
            (Relay m) (screen m).

(** ** The servo angle shown on the Check screen *)

(** [(unsigned int)((angle - 600) / 10)], the argument of the "Servo" line
    (button 10): unsigned subtraction and division. *)
Definition servo_degrees (m : Machine) : Z :=
  u16 (Z.quot (u16 (angle m - 600)) 10).

(** ** Operating mode *)

(** What the menu keeps true of [screen], [runFlag] and the relay. *)
Definition mode_inv (m : Machine) : Prop :=
  (screen m = 0 \/ screen m = 1 \/ screen m = 2 \/ screen m = 3) /\
  (runFlag m = true <-> screen m = 3) /\
  (Relay m = true -> runFlag m = true).

(** The machine on which one iteration decides: sensors refreshed, and
    [runProject] run when [runFlag] is set. *)
Definition decided (i : Inputs) (m : Machine) : Machine :=
  if runFlag m then exec runProject (read_sensors i m) else read_sensors i m.

(** One sweep step on a pulse width in range and the truth value of the
    direction flag, in closed form. *)
Definition wave (p : Z * bool) : Z * bool :=
  let (a, up) := p in
  if up then (Z.min (a + 30) 2400, negb (2400 <=? a + 30))
  else (Z.max (a - 30) 600, a - 30 <=? 600).

(** [wave] returns to [(30 * j, up)] after 120 steps and not before. *)
Definition wave_cycle_at (j : Z) (up : bool) : bool :=
  (let (a, u) := Nat.iter 120 wave (30 * j, up) in
   (a =? 30 * j) && Bool.eqb u up) &&
  forallb (fun k => let (a, u) := Nat.iter k wave (30 * j, up) in
                    negb ((a =? 30 * j) && Bool.eqb u up))
          (List.seq 1 119).

(** The same at every sweep state with pulse width [30 * j]: at the bounds
    the direction points inwards. *)
Definition wave_cycle_both (j : Z) : bool :=
  ((j =? 80) || wave_cycle_at j true) &&
  ((j =? 20) || wave_cycle_at j false).

(** ** [Init_Device] ([init380.c]) *)

(** The special function registers that [Init_Device] writes. *)
Inductive Reg : Type :=
| PCA0MD | PCA0CN | PCA0CPM0 | XBR1 | P0MDOUT | P1MDOUT | P1 | P0 | P2MDIN
| ADC0CN | AMX0N | REF0CN | OSCICN | FLSCL | CLKSEL.

Definition Reg_eq_dec (a b : Reg) : {a = b} + {a <> b}.
Proof. decide equality. Defined.

(** The register file, one byte per register. *)
Definition SFRs : Type := Reg -> Z.

(** Value of an [unsigned char] register after a write. *)
Definition u8 (z : Z) : Z := z mod 256.

(** [r = v;], [r &= ~k;] and [r |= k;]. *)
Definition sfr_set (r : Reg) (v : Z) (s : SFRs) : SFRs :=
  fun r' => if Reg_eq_dec r r' then u8 v else s r'.

Definition sfr_clear (r : Reg) (k : Z) (s : SFRs) : SFRs :=
  sfr_set r (Z.land (s r) (Z.lnot k)) s.

Definition sfr_or (r : Reg) (k : Z) (s : SFRs) : SFRs :=
  sfr_set r (Z.lor (s r) k) s.

(** The statements of [Init_Device], in program order. *)
Definition Init_Device (s : SFRs) : SFRs :=
  fold_left (fun s stmt => stmt s)
    [ sfr_clear PCA0MD 0x40;
      sfr_set PCA0MD 0x00;
      sfr_set PCA0CN 0x40;
      sfr_set PCA0CPM0 0xC2;
      sfr_set XBR1 0x41;
      sfr_or P0MDOUT 0x01;
      sfr_or P1MDOUT 0x01;
      sfr_clear P1MDOUT 0x02;
      sfr_or P1 0x02;
      sfr_or P0MDOUT 0x04;
      sfr_clear P0 0x04;
      sfr_clear P2MDIN 0x07;
      sfr_set ADC0CN 0x80;
      sfr_set AMX0N 0x1F;
      sfr_set REF0CN 0x08;
      sfr_set OSCICN 0xC3;
      sfr_set FLSCL 0x90;
      sfr_set CLKSEL 0x03 ] s.

(** A machine on the Setup screen one minute before midnight. *)
Definition late_setup : Machine :=
  {| temp := 20; TEMP_THRESHOLD := 27; directionUp := 0; angle := 1500;
     hour := 23; minute := 59; second := 30; rain := 0; soil := 0; light := 0;
     runFlag := false; Relay := false; screen := 2 |}.

(** * Properties *)

(** ** Machine integers in range *)

Section Int16Facts.

Lemma u16_small z : 0 <= z < modulus -> u16 z = z.
Proof. intros H. unfold u16. now apply Z.mod_small. Qed.

Lemma s16_small z : -32768 <= z < 32768 -> s16 z = z.
Proof.
  intros H. unfold s16, modulus. rewrite Z.mod_small; lia.
Qed.

End Int16Facts.

(** ** The sweep step *)

Section Sweep.

(** [sweep] never returns early and touches the hardware not at all. *)
Lemma sweep_run m : sweep m = (Next, exec sweep m, []).
Proof.
  unfold exec, sweep, IfElse, If, seq, assign, skip.
  destruct (negb (directionUp m =? 0)); cbn;
    match goal with |- context [if ?c then _ else _] => destruct c end;
    reflexivity.
Qed.

(** The sweep writes [angle] and [directionUp] only. *)
Lemma sweep_frame m :
  exec sweep m =
  set_directionUp (directionUp (exec sweep m))
                  (set_angle (angle (exec sweep m)) m).
Proof.
  unfold exec, sweep, IfElse, If, seq, assign, skip.
  destruct (negb (directionUp m =? 0)); cbn;
    match goal with |- context [if ?c then _ else _] => destruct c end;
    destruct m; reflexivity.
Qed.

(** Upward step in closed form. *)
Lemma sweep_up m :
  is_up m = true ->
  angle (exec sweep m) =
    (if 2400 <=? stepped_up (angle m) then 2400 else stepped_up (angle m))
  /\ directionUp (exec sweep m) =
    (if 2400 <=? stepped_up (angle m) then 0 else directionUp m).
Proof.
  unfold is_up, exec, sweep, IfElse, If, seq, assign, skip.
  intros ->. cbn.
  destruct (2400 <=? stepped_up (angle m)); cbn; auto.
Qed.

(** Downward step in closed form. *)
Lemma sweep_down m :
  is_up m = false ->
  angle (exec sweep m) =
    (if stepped_down (angle m) <=? 600 then 600 else stepped_down (angle m))
  /\ directionUp (exec sweep m) =
    (if stepped_down (angle m) <=? 600 then 1 else directionUp m).
Proof.
  unfold is_up, exec, sweep, IfElse, If, seq, assign, skip.
  intros ->. cbn.
  destruct (stepped_down (angle m) <=? 600); cbn; auto.
Qed.

Lemma stepped_up_range a : in_range a -> stepped_up a = a + 30.
Proof.
  unfold in_range, stepped_up. intros H. apply u16_small.
  unfold modulus. lia.
Qed.

Lemma stepped_down_range a : in_range a -> stepped_down a = a - 30.
Proof.
  unfold in_range, stepped_down. intros H. apply u16_small.
  unfold modulus. lia.
Qed.

End Sweep.

(** ** [runProject] case by case *)

Section RunProject.

Ltac run_guards :=
  unfold runProject, IfG, If, seq, emit, Relay_Off, Relay_On, return_,
    assign, skip, pulse, delay_ms, SOIL_THRESHOLD, RAIN_THRESHOLD,
    LIGHT_THRESHOLD.

Ltac reduce := cbn -[Z.ltb Z.leb in_window temp_too_high sweep].

(** The guards of the program against the conditions of the specification. *)
Lemma guards_flip m :
  (soil m <? 40) = negb (soil_ok m) /\
  (70 <=? light m) = negb (light_ok m) /\
  (rain m <? 80) = negb (rain_ok m) /\
  temp_too_high m = negb (temp_ok m).
Proof.
  unfold soil_ok, light_ok, rain_ok, temp_ok, SOIL_THRESHOLD,
    LIGHT_THRESHOLD, RAIN_THRESHOLD.
  rewrite negb_involutive.
  repeat split; [apply Z.ltb_antisym | apply Z.leb_antisym
                | apply Z.ltb_antisym].
Qed.

Ltac case_guards m :=
  destruct (guards_flip m) as (Gs & Gl & Gr & Gt);
  run_guards; reduce;
  rewrite Gs; destruct (soil_ok m); reduce;
  [ fold (window_ok m); destruct (window_ok m); reduce;
    [ rewrite Gl; destruct (light_ok m); reduce;
      [ rewrite Gr; destruct (rain_ok m); reduce;
        [ rewrite Gt; destruct (temp_ok m); reduce | ] | ] | ] | ].

(** All five conditions hold: the relay is switched on and the sweep makes
    one step. *)
Lemma runProject_met m :
  conditions_met m = true ->
  runProject m =
    (Next, exec sweep (set_Relay true m),
     [EvTest GSoil; EvTest GWindow; EvTest GLight; EvTest GRain; EvTest GTemp;
      EvRelayOn; EvPulse (angle (exec sweep (set_Relay true m))); EvDelay 20]).
Proof.
  unfold conditions_met.
  case_guards m; try (intros H; discriminate H).
  intros _. rewrite sweep_run. reflexivity.
Qed.

(** Some condition fails: the relay is switched off and nothing else is
    written. *)
Lemma runProject_unmet m :
  conditions_met m = false ->
  exec runProject m = set_Relay false m.
Proof.
  unfold conditions_met, exec.
  case_guards m; try (intros _; reflexivity).
  intros H; discriminate H.
Qed.

(** The guards are tested in program order, up to the first that fails. *)
Lemma runProject_tested m :
  (tested (trace runProject m), Relay (exec runProject m)) =
  chain [(GSoil, soil_ok m); (GWindow, window_ok m); (GLight, light_ok m);
         (GRain, rain_ok m); (GTemp, temp_ok m)].
Proof.
  unfold trace, exec.
  case_guards m; try reflexivity.
  rewrite sweep_run. reduce. rewrite sweep_frame. reflexivity.
Qed.

(** On a failing condition the log holds tests and one [Relay_Off]. *)
Lemma runProject_unmet_trace m :
  conditions_met m = false ->
  exists gs, trace runProject m = map EvTest gs ++ [EvRelayOff].
Proof.
  unfold conditions_met, trace.
  case_guards m; intros H; try discriminate H.
  - now exists [GSoil; GWindow; GLight; GRain; GTemp].
  - now exists [GSoil; GWindow; GLight; GRain].
  - now exists [GSoil; GWindow; GLight].
  - now exists [GSoil; GWindow].
  - now exists [GSoil].
Qed.

End RunProject.

(** ** The menu and the loop body *)

Section Loop.

Ltac run_menu :=
  unfold exec, trace, menu, setup_buttons, If, IfElse, seq, assign, skip,
    emit, Relay_Off.

Ltac split_ifs :=
  repeat (cbn -[Z.eqb Z.leb Z.ltb s16];
          match goal with
          | |- context [if ?c then _ else _] =>
              destruct c eqn:?; try (exfalso; lia)
          end);
  cbn -[Z.eqb Z.leb Z.ltb s16].

(** No button writes the sweep state. *)
Lemma menu_sweep_frame b m :
  angle (exec (menu b) m) = angle m /\
  directionUp (exec (menu b) m) = directionUp m.
Proof. run_menu. split_ifs; auto. Qed.

(** Buttons 1 ("Check") and 2 ("Setup") stop the engine and the pump. *)
Lemma menu_leave b m :
  b = 1 \/ b = 2 ->
  runFlag (exec (menu b) m) = false /\
  Relay (exec (menu b) m) = false /\
  In EvRelayOff (trace (menu b) m).
Proof.
  intros [-> | ->]; run_menu; split_ifs; cbn; auto 6.
Qed.

(** Only button 3 ("Project") starts the engine; no button starts the
    pump. *)
Lemma menu_idle b m :
  b <> 3 -> runFlag m = false -> Relay m = false ->
  runFlag (exec (menu b) m) = false /\ Relay (exec (menu b) m) = false.
Proof.
  intros Hb Hr Hp. run_menu. split_ifs; auto; lia.
Qed.

Lemma menu_project m :
  runFlag (exec (menu 3) m) = true /\ Relay (exec (menu 3) m) = Relay m.
Proof. run_menu. split_ifs; auto. Qed.

Lemma menu_threshold b m :
  TEMP_THRESHOLD (exec (menu b) m) = TEMP_THRESHOLD m \/
  b = 17 /\ TEMP_THRESHOLD (exec (menu b) m) = next_threshold (TEMP_THRESHOLD m).
Proof.
  unfold next_threshold. run_menu. split_ifs; auto;
    right; (split; [lia | reflexivity]).
Qed.

(** The threshold after a button, exactly: button 17 while the Setup
    screen shows advances it, nothing else writes it. *)
Lemma menu_threshold_exact b m :
  TEMP_THRESHOLD (exec (menu b) m) =
  (if (screen m =? 2) && (b =? 17)
   then next_threshold (TEMP_THRESHOLD m) else TEMP_THRESHOLD m).
Proof.
  unfold next_threshold.
  destruct (screen m =? 2) eqn:S, (b =? 17) eqn:B; cbn [andb];
    run_menu; split_ifs; auto; exfalso; lia.
Qed.

(** The loop body: sensors are refreshed, [runProject] runs when [runFlag]
    is set, then the menu is served. *)
Lemma tick_unfold i m :
  tick i m =
  exec (menu (in_button i))
       (if runFlag m then exec runProject (read_sensors i m)
        else read_sensors i m).
Proof.
  unfold tick, loop_body, exec, seq, delay_ms, emit, assign, If, call, skip.
  cbn. destruct (runFlag m); cbn.
  - destruct (runProject (read_sensors i m)) as [[f m1] l1]; cbn.
    destruct (menu (in_button i) m1) as [[f2 m2] l2]; reflexivity.
  - destruct (menu (in_button i) (read_sensors i m)) as [[f2 m2] l2];
      reflexivity.
Qed.

(** [runProject] writes the relay and the sweep state only. *)
Lemma runProject_frame m :
  let m' := exec runProject m in
  temp m' = temp m /\ TEMP_THRESHOLD m' = TEMP_THRESHOLD m /\
  hour m' = hour m /\ minute m' = minute m /\ second m' = second m /\
  rain m' = rain m /\ soil m' = soil m /\ light m' = light m /\
  runFlag m' = runFlag m /\ screen m' = screen m.
Proof.
  cbv zeta. destruct (conditions_met m) eqn:E.
  - unfold exec at 1 2 3 4 5 6 7 8 9 10. rewrite (runProject_met m E).
    cbn [fst snd]. rewrite sweep_frame. cbn. tauto.
  - rewrite (runProject_unmet m E). cbn. tauto.
Qed.

End Loop.

(** ** Conditions in the words of the specification *)

Section Conditions.

Lemma in_window_iff h :
  in_window h = true <-> (4 <= h < 8 \/ 19 <= h < 22).
Proof. unfold in_window. lia. Qed.

Lemma temp_ok_iff m :
  temp_ok m = true <-> (temp m < inject_Z (TEMP_THRESHOLD m))%Q.
Proof.
  unfold temp_ok, temp_too_high. rewrite negb_true_iff.
  split; intros H.
  - apply Qnot_le_lt. intros L. apply Qle_bool_iff in L. congruence.
  - destruct (Qle_bool _ _) eqn:E; [|reflexivity].
    apply Qle_bool_iff in E. exfalso. revert E. now apply Qlt_not_le.
Qed.

Lemma conditions_met_iff m :
  conditions_met m = true <-> all_conditions m.
Proof.
  unfold conditions_met, all_conditions.
  rewrite !andb_true_iff, temp_ok_iff.
  unfold soil_ok, window_ok, light_ok, rain_ok.
  rewrite in_window_iff.
  unfold SOIL_THRESHOLD, LIGHT_THRESHOLD, RAIN_THRESHOLD.
  rewrite !Z.leb_le, Z.ltb_lt. tauto.
Qed.

Lemma conditions_unmet_iff m :
  conditions_met m = false <-> ~ all_conditions m.
Proof.
  rewrite <- conditions_met_iff. destruct (conditions_met m); split;
    congruence.
Qed.

(** The relay after a call is the verdict on the five conditions. *)
Lemma runProject_relay m : Relay (exec runProject m) = conditions_met m.
Proof.
  destruct (conditions_met m) eqn:E.
  - unfold exec. rewrite (runProject_met m E). cbn [fst snd].
    rewrite sweep_frame. reflexivity.
  - rewrite (runProject_unmet m E). reflexivity.
Qed.

(** The conditions read the sensor variables and the threshold only. *)
Lemma conditions_met_ext m m' :
  temp m' = temp m -> TEMP_THRESHOLD m' = TEMP_THRESHOLD m ->
  hour m' = hour m -> rain m' = rain m -> soil m' = soil m ->
  light m' = light m ->
  conditions_met m' = conditions_met m.
Proof.
  unfold conditions_met, soil_ok, window_ok, light_ok, rain_ok, temp_ok,
    temp_too_high.
  intros -> -> -> -> -> ->. reflexivity.
Qed.

Lemma runProject_keeps_conditions m :
  conditions_met (exec runProject m) = conditions_met m.
Proof.
  pose proof (runProject_frame m) as F. cbv zeta in F.
  apply conditions_met_ext; tauto.
Qed.

Lemma calls_S n m : calls (S n) m = exec runProject (calls n m).
Proof. reflexivity. Qed.

Lemma calls_keep_conditions n m :
  conditions_met (calls n m) = conditions_met m.
Proof.
  induction n as [|n IH]; [reflexivity|].
  rewrite calls_S.
  now rewrite runProject_keeps_conditions.
Qed.

End Conditions.

(** ** Bounds of the sweep *)

Section SweepBounds.

(** One step from a pulse width in range: closed form of the result. *)
Lemma sweep_step m :
  in_range (angle m) ->
  angle (exec sweep m) =
    (if is_up m then Z.min (angle m + 30) 2400
     else Z.max (angle m - 30) 600) /\
  directionUp (exec sweep m) =
    (if is_up m then (if 2400 <=? angle m + 30 then 0 else directionUp m)
     else (if angle m - 30 <=? 600 then 1 else directionUp m)).
Proof.
  intros R. destruct (is_up m) eqn:U.
  - destruct (sweep_up m U) as [-> ->].
    rewrite (stepped_up_range _ R).
    destruct (2400 <=? angle m + 30) eqn:E; split; auto; lia.
  - destruct (sweep_down m U) as [-> ->].
    rewrite (stepped_down_range _ R).
    destruct (angle m - 30 <=? 600) eqn:E; split; auto; lia.
Qed.

Lemma sweep_in_range m :
  in_range (angle m) -> in_range (angle (exec sweep m)).
Proof.
  intros R. destruct (sweep_step m R) as [-> _].
  unfold in_range in *. destruct (is_up m); lia.
Qed.

(** The direction changes exactly on the steps that end on a bound. *)
Lemma sweep_flip m :
  in_range (angle m) ->
  (is_up (exec sweep m) <> is_up m <->
   angle (exec sweep m) = 2400 \/ angle (exec sweep m) = 600) /\
  (is_up (exec sweep m) <> is_up m <->
   if is_up m then 2400 <= angle m + 30 else angle m - 30 <= 600).
Proof.
  intros R. destruct (sweep_step m R) as [A D].
  unfold is_up at 1 3. rewrite A, D. unfold in_range in R.
  destruct (is_up m) eqn:U; unfold is_up in U.
  - destruct (2400 <=? angle m + 30) eqn:E; cbn; rewrite ?U;
      split; split; intros; try lia; try congruence.
  - destruct (angle m - 30 <=? 600) eqn:E; cbn; rewrite ?U;
      split; split; intros; try lia; try congruence.
Qed.

Lemma sweep_keeps_inv m : sweep_inv m -> sweep_inv (exec sweep m).
Proof.
  unfold sweep_inv. intros (R & M & Hi & Lo).
  destruct (sweep_step m R) as [A D].
  unfold is_up at 1 2. rewrite A, D. unfold in_range in *.
  destruct (is_up m) eqn:U.
  - assert (angle m <> 2400) by (intros E; discriminate (Hi E)).
    destruct (2400 <=? angle m + 30) eqn:E; cbn.
    + rewrite Z.min_r by lia. repeat split; try lia.
    + rewrite Z.min_l by lia. unfold is_up in U. rewrite U.
      repeat split; try lia.
      rewrite <- Zplus_mod_idemp_l, M. reflexivity.
  - assert (angle m <> 600) by (intros E; discriminate (Lo E)).
    destruct (angle m - 30 <=? 600) eqn:E; cbn.
    + rewrite Z.max_r by lia. repeat split; try lia.
    + rewrite Z.max_l by lia. unfold is_up in U. rewrite U.
      repeat split; try lia.
      rewrite <- Zminus_mod_idemp_l, M. reflexivity.
Qed.

Lemma sweep_inv_ext m m' :
  angle m' = angle m -> directionUp m' = directionUp m ->
  sweep_inv m -> sweep_inv m'.
Proof. unfold sweep_inv, is_up. intros -> ->. tauto. Qed.

Lemma runProject_keeps_inv m : sweep_inv m -> sweep_inv (exec runProject m).
Proof.
  intros I. destruct (conditions_met m) eqn:E.
  - unfold exec at 1. rewrite (runProject_met m E). cbn [fst snd].
    apply sweep_keeps_inv. revert I. now apply sweep_inv_ext.
  - rewrite (runProject_unmet m E). revert I. now apply sweep_inv_ext.
Qed.

Lemma tick_keeps_inv i m : sweep_inv m -> sweep_inv (tick i m).
Proof.
  intros I. rewrite tick_unfold.
  destruct (menu_sweep_frame (in_button i)
              (if runFlag m then exec runProject (read_sensors i m)
               else read_sensors i m)) as [A D].
  eapply sweep_inv_ext; [exact A | exact D |].
  assert (I0 : sweep_inv (read_sensors i m))
    by (revert I; now apply sweep_inv_ext).
  destruct (runFlag m); [now apply runProject_keeps_inv | exact I0].
Qed.

Lemma run_keeps_inv l : forall m, sweep_inv m -> sweep_inv (run l m).
Proof.
  induction l as [|i l IH]; intros m I; [exact I|].
  cbn. apply IH. now apply tick_keeps_inv.
Qed.

Lemma initial_inv : sweep_inv initial.
Proof.
  unfold sweep_inv, in_range, is_up; cbn. repeat split; try lia.
Qed.

End SweepBounds.

(** ** Sequences of calls and of loop iterations *)

Section Sequences.

Lemma runProject_sweep_step m :
  conditions_met m = true -> in_range (angle m) ->
  angle (exec runProject m) =
    (if is_up m then Z.min (angle m + 30) 2400
     else Z.max (angle m - 30) 600) /\
  directionUp (exec runProject m) =
    (if is_up m then (if 2400 <=? angle m + 30 then 0 else directionUp m)
     else (if angle m - 30 <=? 600 then 1 else directionUp m)).
Proof.
  intros E R. unfold exec at 1 2. rewrite (runProject_met m E).
  cbn [fst snd]. exact (sweep_step (set_Relay true m) R).
Qed.

Lemma runProject_in_range m :
  in_range (angle m) -> in_range (angle (exec runProject m)).
Proof.
  intros R. destruct (conditions_met m) eqn:E.
  - unfold exec. rewrite (runProject_met m E). cbn [fst snd].
    exact (sweep_in_range (set_Relay true m) R).
  - rewrite (runProject_unmet m E). exact R.
Qed.

Lemma calls_in_range n m :
  in_range (angle m) -> in_range (angle (calls n m)).
Proof.
  intros R. induction n as [|n IH]; [exact R|].
  rewrite calls_S.
  now apply runProject_in_range.
Qed.

(** The sweep reads [angle] and [directionUp] only. *)
Lemma sweep_ext m m' :
  angle m' = angle m -> directionUp m' = directionUp m ->
  angle (exec sweep m') = angle (exec sweep m) /\
  directionUp (exec sweep m') = directionUp (exec sweep m).
Proof.
  intros A D.
  unfold exec, sweep, IfElse, If, seq, assign, skip. rewrite D.
  destruct (negb (directionUp m =? 0)); cbn; rewrite A;
    match goal with |- context [if ?c then _ else _] => destruct c end;
    cbn; auto.
Qed.

(** While the upper bound is more than one step away the sweep climbs. *)
Lemma climb m :
  conditions_met m = true -> angle m = 1500 -> is_up m = true ->
  forall k, (k < 30)%nat ->
    angle (calls k m) = 1500 + 30 * Z.of_nat k /\
    directionUp (calls k m) = directionUp m.
Proof.
  intros E A U k. induction k as [|k IH]; intros Hk.
  - cbn. split; [lia | reflexivity].
  - destruct IH as [Ak Dk]; [lia|].
    rewrite calls_S.
    assert (Uk : is_up (calls k m) = true) by (unfold is_up in *; congruence).
    destruct (runProject_sweep_step (calls k m)) as [A' D'].
    + now rewrite calls_keep_conditions.
    + unfold in_range. lia.
    + rewrite A', D', Uk, Ak.
      replace (2400 <=? 1500 + 30 * Z.of_nat k + 30) with false
        by (symmetry; apply Z.leb_gt; lia).
      split; [lia | exact Dk].
Qed.

(** One iteration changes the threshold by the Setup button 17 or not at
    all. *)
Lemma tick_threshold i m :
  TEMP_THRESHOLD (tick i m) = TEMP_THRESHOLD m \/
  in_button i = 17 /\
  TEMP_THRESHOLD (tick i m) = next_threshold (TEMP_THRESHOLD m).
Proof.
  rewrite tick_unfold.
  set (m1 := if runFlag m then exec runProject (read_sensors i m)
             else read_sensors i m).
  assert (T : TEMP_THRESHOLD m1 = TEMP_THRESHOLD m).
  { unfold m1. destruct (runFlag m); [|reflexivity].
    pose proof (runProject_frame (read_sensors i m)) as F.
    cbv zeta in F. destruct F as (_ & -> & _). reflexivity. }
  rewrite <- T. apply menu_threshold.
Qed.

Lemma tick_threshold_exact i m :
  TEMP_THRESHOLD (tick i m) =
  (if (screen m =? 2) && (in_button i =? 17)
   then next_threshold (TEMP_THRESHOLD m) else TEMP_THRESHOLD m).
Proof.
  rewrite tick_unfold.
  set (m1 := if runFlag m then exec runProject (read_sensors i m)
             else read_sensors i m).
  assert (T : TEMP_THRESHOLD m1 = TEMP_THRESHOLD m /\ screen m1 = screen m).
  { unfold m1. destruct (runFlag m); [|split; reflexivity].
    pose proof (runProject_frame (read_sensors i m)) as F.
    cbv zeta in F.
    destruct F as (_ & -> & _ & _ & _ & _ & _ & _ & _ & ->).
    split; reflexivity. }
  destruct T as [T S]. rewrite <- T, <- S. apply menu_threshold_exact.
Qed.

Lemma next_threshold_range t :
  20 <= t <= 30 ->
  20 <= next_threshold t <= 30 /\
  next_threshold t = (if t =? 30 then 20 else t + 1).
Proof.
  intros H. unfold next_threshold. rewrite s16_small by lia.
  destruct (30 <? t + 1) eqn:E, (t =? 30) eqn:E'; lia.
Qed.

Lemma run_threshold_range l :
  forall m, 20 <= TEMP_THRESHOLD m <= 30 ->
            20 <= TEMP_THRESHOLD (run l m) <= 30.
Proof.
  induction l as [|i l IH]; intros m H; [exact H|].
  cbn. apply IH.
  destruct (tick_threshold i m) as [-> | [_ ->]]; [exact H|].
  now apply next_threshold_range.
Qed.

(** With the engine and the pump off, an iteration without button 3 leaves
    them off and the sweep state as it is. *)
Lemma tick_idle i m :
  in_button i <> 3 -> runFlag m = false -> Relay m = false ->
  runFlag (tick i m) = false /\ Relay (tick i m) = false /\
  angle (tick i m) = angle m /\ directionUp (tick i m) = directionUp m.
Proof.
  intros Hb Hr Hp. rewrite tick_unfold, Hr.
  destruct (menu_idle (in_button i) (read_sensors i m) Hb Hr Hp) as [-> ->].
  destruct (menu_sweep_frame (in_button i) (read_sensors i m)) as [-> ->].
  auto.
Qed.

Lemma run_idle l :
  Forall (fun i => in_button i <> 3) l ->
  forall m, runFlag m = false -> Relay m = false ->
  runFlag (run l m) = false /\ Relay (run l m) = false /\
  angle (run l m) = angle m /\ directionUp (run l m) = directionUp m.
Proof.
  induction 1 as [|i l Hi _ IH]; intros m Hr Hp; [auto|].
  destruct (tick_idle i m Hi Hr Hp) as (Hr' & Hp' & A & D).
  change (run (i :: l) m) with (run l (tick i m)).
  destruct (IH _ Hr' Hp') as (-> & -> & -> & ->). auto.
Qed.

End Sequences.

(** * The claims *)

(** C1: the relay is on after [runProject] if and only if soil >= 40, the
    hour is in an allowed window, light < 70, rain >= 80 and the temperature
    is below the threshold; the guards are evaluated in the order soil,
    window, light, rain, temperature, and evaluation stops at the first
    failing one with the relay off. *)
Theorem C1_decision_chain (m : Machine) :
  (Relay (exec runProject m) = true <-> all_conditions m) /\
  (tested (trace runProject m), Relay (exec runProject m)) =
    chain [(GSoil, 40 <=? soil m);
           (GWindow, in_window (hour m));
           (GLight, light m <? 70);
           (GRain, 80 <=? rain m);
           (GTemp, negb (Qle_bool (inject_Z (TEMP_THRESHOLD m)) (temp m)))].
Proof.
  split; [|exact (runProject_tested m)].
  rewrite <- conditions_met_iff.
  destruct (conditions_met m) eqn:E.
  - unfold exec. rewrite (runProject_met m E). cbn [fst snd].
    rewrite sweep_frame. cbn. tauto.
  - rewrite (runProject_unmet m E). cbn. split; congruence.
Qed.

(** C3: when all five conditions hold, [runProject] switches the relay on
    and moves the pulse width by one step of 30 in the current direction,
    stopping at the bound ahead and reversing there; it writes nothing else
    and sends the new width to the servo once. *)
Theorem C3_step_when_met (m : Machine) :
  all_conditions m -> in_range (angle m) ->
  let m' := exec runProject m in
  Relay m' = true /\
  angle m' = (if is_up m then Z.min (angle m + 30) 2400
              else Z.max (angle m - 30) 600) /\
  directionUp m' =
    (if is_up m then (if 2400 <=? angle m + 30 then 0 else directionUp m)
     else (if angle m - 30 <=? 600 then 1 else directionUp m)) /\
  in_range (angle m') /\
  m' = set_directionUp (directionUp m')
         (set_angle (angle m') (set_Relay true m)) /\
  trace runProject m =
    [EvTest GSoil; EvTest GWindow; EvTest GLight; EvTest GRain; EvTest GTemp;
     EvRelayOn; EvPulse (angle m'); EvDelay 20].
Proof.
  intros C R. apply conditions_met_iff in C. cbv zeta.
  destruct (runProject_sweep_step m C R) as [A D].
  pose proof (runProject_in_range m R) as R'.
  rewrite <- A, <- D.
  unfold exec, trace in *. rewrite (runProject_met m C) in *.
  cbn [fst snd] in *.
  split; [rewrite sweep_frame; reflexivity|].
  split; [reflexivity|]. split; [reflexivity|]. split; [exact R'|].
  split; [apply sweep_frame | reflexivity].
Qed.

Lemma C3_step_when_met_witness :
  all_conditions watering /\ in_range (angle watering) /\
  Relay (exec runProject watering) = true /\
  angle (exec runProject watering) = 1530.
Proof.
  assert (C : all_conditions watering)
    by (unfold all_conditions, Qlt; cbn; lia).
  assert (R : in_range (angle watering)) by (unfold in_range; cbn; lia).
  split; [exact C|]. split; [exact R|].
  destruct (C3_step_when_met watering C R) as (P & A & _).
  split; [exact P | exact A].
Defined.

(** C4: when one of the five conditions fails, [runProject] switches the
    relay off and leaves everything else, the sweep state included, as it
    was; no pulse is sent. *)
Theorem C4_no_step_when_unmet (m : Machine) :
  ~ all_conditions m ->
  let m' := exec runProject m in
  Relay m' = false /\
  angle m' = angle m /\ directionUp m' = directionUp m /\
  m' = set_Relay false m /\
  exists gs, trace runProject m = map EvTest gs ++ [EvRelayOff].
Proof.
  intros C. apply conditions_unmet_iff in C. cbv zeta.
  rewrite (runProject_unmet m C). cbn.
  repeat split. now apply runProject_unmet_trace.
Qed.

Lemma C4_no_step_when_unmet_witness :
  ~ all_conditions moist /\
  Relay (exec runProject moist) = false /\
  angle (exec runProject moist) = 1500 /\
  directionUp (exec runProject moist) = 1.
Proof.
  assert (C : ~ all_conditions moist)
    by (unfold all_conditions; cbn; lia).
  split; [exact C|].
  destruct (C4_no_step_when_unmet moist C) as (P & A & D & _).
  split; [exact P|]. split; [exact A | exact D].
Defined.

(** C5: the window guard of [runProject] reads the hour only and passes
    exactly for hours in [4,8) and [19,22).  With the other four conditions
    met the relay is on iff the hour is in a window, whatever minute and
    second are, and an hour outside stops the chain at the window guard;
    in particular 4 and 19 pass while 8, 22, 3 and 23 fail; changing minute
    and second changes neither the guards evaluated nor the decision. *)
Theorem C5_time_window (m : Machine) (h mi s : Z) :
  (in_window h = true <-> (4 <= h < 8 \/ 19 <= h < 22)) /\
  in_window 4 = true /\ in_window 19 = true /\
  in_window 8 = false /\ in_window 22 = false /\
  in_window 3 = false /\ in_window 23 = false /\
  (let m2 := mkMachine (temp m) (TEMP_THRESHOLD m) (directionUp m) (angle m)
               (hour m) mi s (rain m) (soil m) (light m) (runFlag m)
               (Relay m) (screen m) in
   tested (trace runProject m2) = tested (trace runProject m) /\
   Relay (exec runProject m2) = Relay (exec runProject m)) /\
  (Relay (exec runProject m) = true <->
   (4 <= hour m < 8 \/ 19 <= hour m < 22) /\
   40 <= soil m /\ light m < 70 /\ 80 <= rain m /\
   (temp m < inject_Z (TEMP_THRESHOLD m))%Q) /\
  (40 <= soil m -> light m < 70 -> 80 <= rain m ->
   (temp m < inject_Z (TEMP_THRESHOLD m))%Q ->
   (Relay (exec runProject (set_time h mi s m)) = true <->
    (4 <= h < 8 \/ 19 <= h < 22)) /\
   tested (trace runProject (set_time h mi s m)) =
     (if in_window h then [GSoil; GWindow; GLight; GRain; GTemp]
      else [GSoil; GWindow])).
Proof.
  split; [apply in_window_iff|].
  repeat (split; [reflexivity|]).
  split.
  { cbv zeta.
    match goal with |- tested (trace _ ?x) = _ /\ _ => set (m2 := x) end.
    pose proof (runProject_tested m2) as T2.
    pose proof (runProject_tested m) as T.
    assert (E : (tested (trace runProject m2), Relay (exec runProject m2)) =
                (tested (trace runProject m), Relay (exec runProject m)))
      by (rewrite T2, T; reflexivity).
    inversion E. split; reflexivity. }
  split.
  { rewrite runProject_relay, conditions_met_iff.
    unfold all_conditions. tauto. }
  intros Hs Hl Hr Ht.
  set (m' := set_time h mi s m).
  assert (S : soil_ok m' = true) by (apply Z.leb_le; exact Hs).
  assert (L : light_ok m' = true) by (apply Z.ltb_lt; exact Hl).
  assert (R : rain_ok m' = true) by (apply Z.leb_le; exact Hr).
  assert (T : temp_ok m' = true) by (apply temp_ok_iff; exact Ht).
  assert (W : window_ok m' = in_window h) by reflexivity.
  split.
  - rewrite runProject_relay. unfold conditions_met.
    rewrite S, L, R, T, W, <- in_window_iff.
    destruct (in_window h); cbn; tauto.
  - pose proof (runProject_tested m') as C.
    rewrite S, L, R, T, W in C.
    destruct (in_window h); cbn in C; inversion C; reflexivity.
Qed.

Lemma C5_time_window_witness :
  Relay (exec runProject (set_time 4 59 59 watering)) = true /\
  Relay (exec runProject (set_time 19 0 0 watering)) = true /\
  tested (trace runProject (set_time 8 0 0 watering)) = [GSoil; GWindow] /\
  tested (trace runProject (set_time 22 0 0 watering)) = [GSoil; GWindow] /\
  tested (trace runProject (set_time 3 59 59 watering)) = [GSoil; GWindow] /\
  tested (trace runProject (set_time 23 30 0 watering)) = [GSoil; GWindow].
Proof.
  assert (Hs : 40 <= soil watering) by (cbn; lia).
  assert (Hl : light watering < 70) by (cbn; lia).
  assert (Hr : 80 <= rain watering) by (cbn; lia).
  assert (Ht : (temp watering < inject_Z (TEMP_THRESHOLD watering))%Q)
    by (unfold Qlt; cbn; lia).
  destruct (C5_time_window watering 4 59 59)
    as (_ & _ & _ & _ & _ & _ & _ & _ & _ & K4).
  destruct (C5_time_window watering 19 0 0)
    as (_ & _ & _ & _ & _ & _ & _ & _ & _ & K19).
  destruct (C5_time_window watering 8 0 0)
    as (_ & _ & _ & _ & _ & _ & _ & _ & _ & K8).
  destruct (C5_time_window watering 22 0 0)
    as (_ & _ & _ & _ & _ & _ & _ & _ & _ & K22).
  destruct (C5_time_window watering 3 59 59)
    as (_ & _ & _ & _ & _ & _ & _ & _ & _ & K3).
  destruct (C5_time_window watering 23 30 0)
    as (_ & _ & _ & _ & _ & _ & _ & _ & _ & K23).
  split; [apply (proj1 (K4 Hs Hl Hr Ht)); lia|].
  split; [apply (proj1 (K19 Hs Hl Hr Ht)); lia|].
  split; [exact (proj2 (K8 Hs Hl Hr Ht))|].
  split; [exact (proj2 (K22 Hs Hl Hr Ht))|].
  split; [exact (proj2 (K3 Hs Hl Hr Ht))|].
  exact (proj2 (K23 Hs Hl Hr Ht)).
Defined.

(** C2: along any run of calls with all conditions met, started from a
    pulse width in [600,2400], the pulse width stays in [600,2400], and each
    call reverses the direction exactly when it ends on a bound, that is,
    exactly when the step of 30 reaches or passes the bound ahead. *)
Theorem C2_sweep_stays_in_range (m : Machine) (n : nat) :
  all_conditions m -> in_range (angle m) ->
  let before := calls n m in
  let after := exec runProject before in
  in_range (angle before) /\ in_range (angle after) /\
  (is_up after <> is_up before <-> angle after = 2400 \/ angle after = 600) /\
  (is_up after <> is_up before <->
   if is_up before then 2400 <= angle before + 30
   else angle before - 30 <= 600).
Proof.
  intros C R. cbv zeta. apply conditions_met_iff in C.
  pose proof (calls_in_range n m R) as Rn.
  split; [exact Rn|]. split; [now apply runProject_in_range|].
  assert (Cn : conditions_met (calls n m) = true)
    by now rewrite calls_keep_conditions.
  unfold exec at 1 2 3 4. rewrite (runProject_met _ Cn). cbn [fst snd].
  exact (sweep_flip (set_Relay true (calls n m)) Rn).
Qed.

Lemma C2_sweep_stays_in_range_witness :
  all_conditions watering /\ in_range (angle watering) /\
  in_range (angle (calls 100 watering)) /\
  in_range (angle (exec runProject (calls 100 watering))).
Proof.
  assert (C : all_conditions watering)
    by (unfold all_conditions, Qlt; cbn; lia).
  assert (R : in_range (angle watering)) by (unfold in_range; cbn; lia).
  split; [exact C|]. split; [exact R|].
  destruct (C2_sweep_stays_in_range watering 100 C R) as (B & A & _).
  split; [exact B | exact A].
Defined.

(** C6: from pulse width 1500 with the direction up, calls with all
    conditions met raise the pulse width by 30 each and keep the direction
    up for the first 29; the 30th call reaches exactly 2400 and turns the
    direction down. *)
Theorem C6_thirty_steps_to_top (m : Machine) :
  all_conditions m -> angle m = 1500 -> is_up m = true ->
  (forall k, (k < 30)%nat ->
     angle (calls k m) = 1500 + 30 * Z.of_nat k /\
     is_up (calls k m) = true) /\
  angle (calls 30 m) = 2400 /\ is_up (calls 30 m) = false.
Proof.
  intros C A U. apply conditions_met_iff in C. split.
  - intros k Hk. destruct (climb m C A U k Hk) as [Ak Dk].
    split; [exact Ak|]. unfold is_up in *. now rewrite Dk.
  - destruct (climb m C A U 29) as [A29 D29]; [lia|].
    change (1500 + 30 * Z.of_nat 29) with 2370 in A29.
    rewrite (calls_S 29 m).
    destruct (runProject_sweep_step (calls 29 m)) as [A' D'].
    + now rewrite calls_keep_conditions.
    + unfold in_range. lia.
    + assert (U29 : is_up (calls 29 m) = true)
        by (unfold is_up in *; congruence).
      unfold is_up at 1. rewrite A', D', U29, A29. split; reflexivity.
Qed.

Lemma C6_thirty_steps_to_top_witness :
  all_conditions watering /\ angle watering = 1500 /\
  is_up watering = true /\
  angle (calls 30 watering) = 2400 /\ is_up (calls 30 watering) = false.
Proof.
  assert (C : all_conditions watering)
    by (unfold all_conditions, Qlt; cbn; lia).
  split; [exact C|]. split; [reflexivity|]. split; [reflexivity|].
  exact (proj2 (C6_thirty_steps_to_top watering C eq_refl eq_refl)).
Defined.

(** C7 as the program has it: before any call the pulse width is 1500 and
    the direction flag is 0 (down); after "Project" is pressed, the first
    call with all conditions met therefore moves the pulse width down to
    1470. *)
Theorem C7_initial_sweep_state :
  angle initial = 1500 /\ directionUp initial = 0 /\
  is_up initial = false /\
  angle (run [good_inputs 3] initial) = 1500 /\
  angle (run [good_inputs 3; good_inputs 0] initial) = 1470 /\
  is_up (run [good_inputs 3; good_inputs 0] initial) = false.
Proof. repeat split; vm_compute; reflexivity. Qed.

(** C7 as stated fails: the initial direction is not up. *)
Lemma C7_initial_direction_not_up :
  ~ (angle initial = 1500 /\ is_up initial = true).
Proof. intros [_ U]. discriminate U. Qed.

(** C8: pressing "Check" or "Setup" clears [runFlag] and switches the relay
    off in the same handler without touching the sweep state; through any
    later iterations in which "Project" is not pressed the relay stays off
    and the sweep state stays as saved; pressing "Project" sets [runFlag]
    again with the same sweep state, and the next iteration with all
    conditions met advances the sweep from the saved position and
    direction. *)
Theorem C8_leave_and_resume
    (m : Machine) (b : Z) (l : list Inputs) (i3 inext : Inputs) :
  b = 1 \/ b = 2 ->
  Forall (fun i => in_button i <> 3) l ->
  in_button i3 = 3 ->
  let left := exec (menu b) m in
  let idle := run l left in
  let resumed := tick i3 idle in
  all_conditions (read_sensors inext resumed) ->
  (runFlag left = false /\ Relay left = false /\
   In EvRelayOff (trace (menu b) m) /\
   angle left = angle m /\ directionUp left = directionUp m) /\
  (runFlag idle = false /\ Relay idle = false /\
   angle idle = angle m /\ directionUp idle = directionUp m) /\
  (runFlag resumed = true /\
   angle resumed = angle m /\ directionUp resumed = directionUp m) /\
  (angle (tick inext resumed) = angle (exec sweep m) /\
   directionUp (tick inext resumed) = directionUp (exec sweep m)).
Proof.
  intros Hb Hl H3. cbv zeta. intros C.
  destruct (menu_leave b m Hb) as (Lr & Lp & Le).
  destruct (menu_sweep_frame b m) as [La Ld].
  destruct (run_idle l Hl _ Lr Lp) as (Ir & Ip & Ia & Id).
  rewrite La in Ia. rewrite Ld in Id.
  set (idle := run l (exec (menu b) m)) in *.
  assert (R : runFlag (tick i3 idle) = true /\
              angle (tick i3 idle) = angle m /\
              directionUp (tick i3 idle) = directionUp m).
  { rewrite tick_unfold, Ir, H3.
    destruct (menu_project (read_sensors i3 idle)) as [-> _].
    destruct (menu_sweep_frame 3 (read_sensors i3 idle)) as [-> ->].
    auto. }
  destruct R as (Rr & Ra & Rd).
  set (resumed := tick i3 idle) in *.
  repeat split; auto.
  - rewrite tick_unfold, Rr.
    destruct (menu_sweep_frame (in_button inext)
                (exec runProject (read_sensors inext resumed))) as [-> _].
    apply conditions_met_iff in C.
    unfold exec at 1. rewrite (runProject_met _ C). cbn [fst snd].
    now apply sweep_ext.
  - rewrite tick_unfold, Rr.
    destruct (menu_sweep_frame (in_button inext)
                (exec runProject (read_sensors inext resumed))) as [_ ->].
    apply conditions_met_iff in C.
    unfold exec at 1. rewrite (runProject_met _ C). cbn [fst snd].
    now apply sweep_ext.
Qed.

Lemma C8_leave_and_resume_witness :
  Relay (exec (menu 1) (exec runProject watering)) = false /\
  angle (tick (good_inputs 0)
          (tick (good_inputs 3)
            (run [good_inputs 0; good_inputs 2; good_inputs 17]
               (exec (menu 1) (exec runProject watering))))) = 1560.
Proof.
  assert (Hb : 1 = 1 \/ 1 = 2) by (left; reflexivity).
  assert (Hl : Forall (fun i => in_button i <> 3)
                 [good_inputs 0; good_inputs 2; good_inputs 17])
    by (repeat constructor; discriminate).
  assert (H3 : in_button (good_inputs 3) = 3) by reflexivity.
  assert (C : all_conditions
                (read_sensors (good_inputs 0)
                   (tick (good_inputs 3)
                      (run [good_inputs 0; good_inputs 2; good_inputs 17]
                         (exec (menu 1) (exec runProject watering))))))
    by (match goal with |- all_conditions ?x =>
          let y := eval vm_compute in x in change (all_conditions y)
        end; unfold all_conditions, Qlt; cbn; lia).
  destruct (C8_leave_and_resume (exec runProject watering) 1
              [good_inputs 0; good_inputs 2; good_inputs 17]
              (good_inputs 3) (good_inputs 0) Hb Hl H3 C)
    as ((_ & P & _) & _ & _ & (A & _)).
  split; [exact P | exact A].
Defined.

(** C9 as the program has it: the threshold starts at 27 and stays within
    20..30; an iteration with button 17 pressed while the Setup screen shows
    raises it by one, 30 being followed by 20, and every other iteration
    leaves it alone; 30 is reached and is followed by 20. *)
Theorem C9_threshold_cycle (l : list Inputs) (i : Inputs) :
  TEMP_THRESHOLD initial = 27 /\
  (let m := run l initial in
   20 <= TEMP_THRESHOLD m <= 30 /\
   (TEMP_THRESHOLD (tick i m) = TEMP_THRESHOLD m \/
    in_button i = 17 /\
    TEMP_THRESHOLD (tick i m) =
      (if TEMP_THRESHOLD m =? 30 then 20 else TEMP_THRESHOLD m + 1)) /\
   TEMP_THRESHOLD (tick i m) =
     (if (screen m =? 2) && (in_button i =? 17)
      then (if TEMP_THRESHOLD m =? 30 then 20 else TEMP_THRESHOLD m + 1)
      else TEMP_THRESHOLD m) /\
   (screen m = 2 -> in_button i = 17 ->
    TEMP_THRESHOLD (tick i m) =
      (if TEMP_THRESHOLD m =? 30 then 20 else TEMP_THRESHOLD m + 1))) /\
  TEMP_THRESHOLD (run (good_inputs 2 :: repeat (good_inputs 17) 3) initial)
    = 30 /\
  TEMP_THRESHOLD (run (good_inputs 2 :: repeat (good_inputs 17) 4) initial)
    = 20.
Proof.
  split; [reflexivity|]. split; [|split; vm_compute; reflexivity].
  cbv zeta.
  assert (R : 20 <= TEMP_THRESHOLD (run l initial) <= 30)
    by (apply run_threshold_range; cbn; lia).
  destruct (next_threshold_range _ R) as [_ N].
  assert (X : TEMP_THRESHOLD (tick i (run l initial)) =
              (if (screen (run l initial) =? 2) && (in_button i =? 17)
               then (if TEMP_THRESHOLD (run l initial) =? 30 then 20
                     else TEMP_THRESHOLD (run l initial) + 1)
               else TEMP_THRESHOLD (run l initial)))
    by (rewrite <- N; apply tick_threshold_exact).
  split; [exact R|]. split; [|split; [exact X|]].
  - destruct (tick_threshold i (run l initial)) as [E | [B E]]; [now left|].
    right. split; [exact B|]. rewrite E. exact N.
  - intros S B. rewrite X, S, B. reflexivity.
Qed.

Lemma C9_threshold_cycle_witness :
  TEMP_THRESHOLD (tick (good_inputs 17) (run [good_inputs 2] initial)) = 28 /\
  TEMP_THRESHOLD
    (tick (good_inputs 17)
       (run (good_inputs 2 :: repeat (good_inputs 17) 3) initial)) = 20.
Proof.
  destruct (C9_threshold_cycle [good_inputs 2] (good_inputs 17))
    as (_ & (_ & _ & _ & K) & _).
  destruct (C9_threshold_cycle (good_inputs 2 :: repeat (good_inputs 17) 3)
              (good_inputs 17))
    as (_ & (_ & _ & _ & K') & _).
  split; [exact (K eq_refl eq_refl) | exact (K' eq_refl eq_refl)].
Defined.

(** C9 as stated fails: at threshold 20 no input of an iteration yields 30;
    the program has no decrement of the threshold. *)
Lemma C9_no_decrement :
  TEMP_THRESHOLD at_twenty = 20 /\
  ~ exists i, TEMP_THRESHOLD (tick i at_twenty) = 30.
Proof.
  assert (E : TEMP_THRESHOLD at_twenty = 20) by (vm_compute; reflexivity).
  split; [exact E|].
  intros [i H].
  destruct (tick_threshold i at_twenty) as [T | [_ T]];
    rewrite T, E in H; vm_compute in H; discriminate H.
Qed.

(** C10: from the initial state every reachable pulse width is a multiple
    of 30 in [600,2400]; a step that reaches or passes a bound lands exactly
    on it, so the clamping assignment rewrites the value it already holds;
    600 and 2400 are both reached. *)
Theorem C10_multiples_of_thirty :
  (forall l : list Inputs,
     let m := run l initial in
     in_range (angle m) /\ angle m mod 30 = 0 /\
     (is_up m = true ->
      2400 <= stepped_up (angle m) -> stepped_up (angle m) = 2400) /\
     (is_up m = false ->
      stepped_down (angle m) <= 600 -> stepped_down (angle m) = 600)) /\
  angle (run (good_inputs 3 :: repeat (good_inputs 0) 30) initial) = 600 /\
  angle (run (good_inputs 3 :: repeat (good_inputs 0) 90) initial) = 2400.
Proof.
  split; [|split; vm_compute; reflexivity].
  intros l. cbv zeta.
  destruct (run_keeps_inv l initial initial_inv) as (R & M & Hi & Lo).
  split; [exact R|]. split; [exact M|].
  unfold in_range in R. split; intros U H.
  - rewrite stepped_up_range in * by exact R.
    assert (angle (run l initial) <> 2400)
      by (intros E; rewrite (Hi E) in U; discriminate U).
    destruct (Z.eq_dec (angle (run l initial) + 30) 2400) as [|N]; [easy|].
    exfalso.
    revert M H H0 N R. generalize (angle (run l initial)). intros a Ma.
    pose proof (Z.div_mod a 30 ltac:(lia)). lia.
  - rewrite stepped_down_range in * by exact R.
    assert (angle (run l initial) <> 600)
      by (intros E; rewrite (Lo E) in U; discriminate U).
    destruct (Z.eq_dec (angle (run l initial) - 30) 600) as [|N]; [easy|].
    exfalso.
    revert M H H0 N R. generalize (angle (run l initial)). intros a Ma.
    pose proof (Z.div_mod a 30 ltac:(lia)). lia.
Qed.

(** * Further properties of the program *)

(** ** Sensor acquisition *)

Section Acquisition.

Lemma to_percent_div raw : 0 <= raw -> to_percent raw = raw * 10 / 102.
Proof. intros H. unfold to_percent. apply Z.quot_div_nonneg; lia. Qed.

Lemma read_sensors_conditions i m :
  all_conditions (read_sensors i m) <->
  408 <= adc_soil i /\
  (4 <= in_hour i < 8 \/ 19 <= in_hour i < 22) /\
  adc_light i < 714 /\
  816 <= adc_rain i /\
  (in_temp i < inject_Z (TEMP_THRESHOLD m))%Q.
Proof.
  unfold all_conditions, read_sensors, to_percent; cbn.
  assert (S : 40 <= Z.quot (adc_soil i * 10) 102 <-> 408 <= adc_soil i)
    by (Z.quot_rem_to_equations; lia).
  assert (L : Z.quot (adc_light i * 10) 102 < 70 <-> adc_light i < 714)
    by (Z.quot_rem_to_equations; lia).
  assert (R : 80 <= Z.quot (adc_rain i * 10) 102 <-> 816 <= adc_rain i)
    by (Z.quot_rem_to_equations; lia).
  tauto.
Qed.

End Acquisition.

(** X1: for 10-bit ADC readings the product [raw * 10] fits a 16-bit [int],
    and the percentage is monotone in the reading and lies in 0..100,
    reaching 100 exactly from 1020 counts on. *)
Theorem X1_percent_range (a b : Z) :
  0 <= a -> a <= b -> b <= 1023 ->
  b * 10 < 32768 /\
  0 <= to_percent a /\ to_percent a <= to_percent b /\ to_percent b <= 100 /\
  (to_percent b = 100 <-> 1020 <= b).
Proof.
  intros Ha Hab Hb.
  rewrite (to_percent_div a), (to_percent_div b) by lia.
  split; [lia|]. split; [apply Z.div_pos; lia|].
  split; [apply Z.div_le_mono; lia|].
  Z.div_mod_to_equations. lia.
Qed.

Lemma X1_percent_range_witness :
  to_percent 407 <= to_percent 1023 /\ to_percent 1023 <= 100.
Proof.
  destruct (X1_percent_range 407 1023 ltac:(lia) ltac:(lia) ltac:(lia))
    as (_ & _ & M & U & _).
  split; [exact M | exact U].
Defined.

(** ** Operating mode and the relay *)

Section Mode.

Ltac run_menu :=
  unfold exec, trace, menu, setup_buttons, If, IfElse, seq, assign, skip,
    emit, Relay_Off.

Ltac split_ifs :=
  repeat (cbn -[Z.eqb Z.leb Z.ltb s16];
          match goal with
          | |- context [if ?c then _ else _] =>
              destruct c eqn:?; try (exfalso; lia)
          end);
  cbn -[Z.eqb Z.leb Z.ltb s16].

(** What a button does to the screen, the engine flag and the relay. *)
Lemma menu_mode b m :
  screen (exec (menu b) m) =
    (if (b =? 1) || (b =? 2) || (b =? 3) then b else screen m) /\
  runFlag (exec (menu b) m) =
    (if (b =? 1) || (b =? 2) then false
     else if b =? 3 then true else runFlag m) /\
  Relay (exec (menu b) m) =
    (if (b =? 1) || (b =? 2) then false else Relay m).
Proof.
  run_menu.
  destruct (b =? 1) eqn:B1; [assert (b = 1) by lia; subst b|];
    [|destruct (b =? 2) eqn:B2; [assert (b = 2) by lia; subst b|]];
    [| |destruct (b =? 3) eqn:B3; [assert (b = 3) by lia; subst b|]];
    split_ifs; auto.
Qed.

(** The menu leaves the readings alone, but for the clock buttons. *)
Lemma menu_sensor_frame b m :
  temp (exec (menu b) m) = temp m /\ second (exec (menu b) m) = second m /\
  soil (exec (menu b) m) = soil m /\ rain (exec (menu b) m) = rain m /\
  light (exec (menu b) m) = light m /\
  (hour (exec (menu b) m) = hour m \/ screen m = 2 /\ (b = 13 \/ b = 14)) /\
  (minute (exec (menu b) m) = minute m \/
   screen m = 2 /\ (b = 15 \/ b = 16)).
Proof.
  run_menu. split_ifs; repeat split; auto; right; lia.
Qed.

Lemma menu_no_pulse b m a : ~ In (EvPulse a) (trace (menu b) m).
Proof.
  run_menu. split_ifs; cbn; intuition discriminate.
Qed.

Lemma tick_decided i m : tick i m = exec (menu (in_button i)) (decided i m).
Proof. apply tick_unfold. Qed.

Lemma decided_mode i m :
  screen (decided i m) = screen m /\ runFlag (decided i m) = runFlag m /\
  Relay (decided i m) = (if runFlag m then conditions_met (read_sensors i m)
                         else Relay m).
Proof.
  unfold decided. destruct (runFlag m) eqn:F; [|auto].
  pose proof (runProject_frame (read_sensors i m)) as H. cbv zeta in H.
  destruct H as (_ & _ & _ & _ & _ & _ & _ & _ & Hr & Hs).
  rewrite Hr, Hs, runProject_relay. auto.
Qed.

Lemma tick_keeps_mode i m : mode_inv m -> mode_inv (tick i m).
Proof.
  unfold mode_inv. intros (S & F & P).
  rewrite tick_decided.
  destruct (menu_mode (in_button i) (decided i m)) as (-> & -> & ->).
  destruct (decided_mode i m) as (-> & -> & ->).
  destruct (in_button i =? 1) eqn:B1; [cbn; split; [|split]; try lia;
    intuition (try discriminate; lia)|].
  destruct (in_button i =? 2) eqn:B2; [cbn; split; [|split]; try lia;
    intuition (try discriminate; lia)|].
  destruct (in_button i =? 3) eqn:B3; [cbn; split; [|split]; try lia;
    intuition (try discriminate; lia)|].
  cbn. split; [exact S|]. split; [exact F|].
  destruct (runFlag m); [reflexivity | exact P].
Qed.

Lemma run_keeps_mode l : forall m, mode_inv m -> mode_inv (run l m).
Proof.
  induction l as [|i l IH]; intros m I; [exact I|].
  cbn. apply IH. now apply tick_keeps_mode.
Qed.

Lemma initial_mode : mode_inv initial.
Proof.
  unfold mode_inv; cbn. split; [lia|]. split; [split; [discriminate|lia]|].
  discriminate.
Qed.

(** The log of one iteration. *)
Lemma loop_trace i m :
  trace (loop_body i) m =
  EvDelay 20 ::
    (if runFlag m then trace runProject (read_sensors i m) else []) ++
    trace (menu (in_button i)) (decided i m).
Proof.
  unfold decided, trace, loop_body, exec, seq, delay_ms, emit, assign, If,
    call, skip.
  cbn. destruct (runFlag m); cbn.
  - destruct (runProject (read_sensors i m)) as [[f m1] l1]; cbn.
    destruct (menu (in_button i) m1) as [[f2 m2] l2]; reflexivity.
  - destruct (menu (in_button i) (read_sensors i m)) as [[f2 m2] l2];
      reflexivity.
Qed.

End Mode.

(** X2: on freshly read sensors [runProject] switches the pump on exactly
    when the soil channel reads 408 counts or more, the hour is in [4,8) or
    [19,22), the light channel reads below 714 counts, the rain channel
    reads 816 counts or more, and the temperature is below the threshold. *)
Theorem X2_decision_in_counts (i : Inputs) (m : Machine) :
  Relay (exec runProject (read_sensors i m)) = true <->
  408 <= adc_soil i /\
  (4 <= in_hour i < 8 \/ 19 <= in_hour i < 22) /\
  adc_light i < 714 /\
  816 <= adc_rain i /\
  (in_temp i < inject_Z (TEMP_THRESHOLD m))%Q.
Proof.
  rewrite runProject_relay, conditions_met_iff.
  apply read_sensors_conditions.
Qed.

(** X3: in every state the loop reaches, [screen] is 0, 1, 2 or 3, the
    engine flag is set exactly on the Project screen, and the relay is on
    only while the engine flag is set. *)
Theorem X3_mode_invariant (l : list Inputs) :
  let m := run l initial in
  (screen m = 0 \/ screen m = 1 \/ screen m = 2 \/ screen m = 3) /\
  (runFlag m = true <-> screen m = 3) /\
  (Relay m = true -> runFlag m = true).
Proof. exact (run_keeps_mode l initial initial_mode). Qed.

(** X4: the relay does not latch.  After an iteration from a reachable
    state the pump is on exactly when the engine flag was set at its start,
    the readings of this iteration meet all five conditions, and neither
    "Check" nor "Setup" was pressed. *)
Theorem X4_relay_follows_readings (l : list Inputs) (i : Inputs) :
  let m := run l initial in
  Relay (tick i m) = true <->
  runFlag m = true /\ all_conditions (read_sensors i m) /\
  in_button i <> 1 /\ in_button i <> 2.
Proof.
  cbv zeta. set (m := run l initial).
  destruct (run_keeps_mode l initial initial_mode) as (_ & _ & P).
  fold m in P.
  rewrite tick_decided.
  destruct (menu_mode (in_button i) (decided i m)) as (_ & _ & ->).
  destruct (decided_mode i m) as (_ & _ & ->).
  rewrite <- conditions_met_iff.
  destruct (in_button i =? 1) eqn:B1; [cbn; split; [discriminate | lia]|].
  destruct (in_button i =? 2) eqn:B2; [cbn; split; [discriminate | lia]|].
  cbn. destruct (runFlag m) eqn:F.
  - split; [intros ->; repeat split; lia | tauto].
  - split; [intros R; specialize (P R); discriminate P|].
    intros (D & _); discriminate D.
Qed.

(** X5: the sensor variables are a snapshot of the current iteration:
    after it they hold what was read in it, whatever they held before; the
    clock variables differ from the reading only by a clock button of the
    Setup screen. *)
Theorem X5_snapshot_is_fresh (i : Inputs) (m : Machine) :
  temp (tick i m) = in_temp i /\ second (tick i m) = in_second i /\
  soil (tick i m) = to_percent (adc_soil i) /\
  rain (tick i m) = to_percent (adc_rain i) /\
  light (tick i m) = to_percent (adc_light i) /\
  (hour (tick i m) = in_hour i \/
   screen m = 2 /\ (in_button i = 13 \/ in_button i = 14)) /\
  (minute (tick i m) = in_minute i \/
   screen m = 2 /\ (in_button i = 15 \/ in_button i = 16)).
Proof.
  rewrite tick_decided.
  destruct (menu_sensor_frame (in_button i) (decided i m))
    as (-> & -> & -> & -> & -> & H & M).
  destruct (decided_mode i m) as (S & _ & _). rewrite S in H, M.
  assert (D : temp (decided i m) = in_temp i /\
              second (decided i m) = in_second i /\
              soil (decided i m) = to_percent (adc_soil i) /\
              rain (decided i m) = to_percent (adc_rain i) /\
              light (decided i m) = to_percent (adc_light i) /\
              hour (decided i m) = in_hour i /\
              minute (decided i m) = in_minute i).
  { unfold decided. destruct (runFlag m); [|cbn; tauto].
    pose proof (runProject_frame (read_sensors i m)) as F. cbv zeta in F.
    destruct F as (-> & _ & -> & -> & -> & -> & -> & -> & _).
    cbn; tauto. }
  destruct D as (-> & -> & -> & -> & -> & Dh & Dm).
  rewrite Dh in H. rewrite Dm in M. tauto.
Qed.

(** X6: every pulse width the loop sends to the servo, in any reachable
    state, is a multiple of 30 within 600..2400, is the value [angle] holds
    after the iteration, and is sent only while the engine flag is set. *)
Theorem X6_pulses_in_range (l : list Inputs) (i : Inputs) (a : Z) :
  In (EvPulse a) (trace (loop_body i) (run l initial)) ->
  in_range a /\ a mod 30 = 0 /\
  a = angle (tick i (run l initial)) /\
  runFlag (run l initial) = true.
Proof.
  set (m := run l initial). rewrite loop_trace. intros [H|H]; [discriminate H|].
  apply in_app_or in H. destruct H as [H|H];
    [|exfalso; exact (menu_no_pulse _ _ _ H)].
  destruct (runFlag m) eqn:F; [|destruct H].
  assert (I : sweep_inv (tick i m))
    by (apply tick_keeps_inv, run_keeps_inv, initial_inv).
  assert (A : a = angle (tick i m)).
  { rewrite tick_decided.
    destruct (menu_sweep_frame (in_button i) (decided i m)) as [-> _].
    unfold decided. rewrite F.
    destruct (conditions_met (read_sensors i m)) eqn:C.
    - unfold trace, exec in *. rewrite (runProject_met _ C) in *.
      cbn [fst snd] in *. cbn in H.
      repeat (destruct H as [H|H]; try discriminate H).
      + now inversion H.
      + destruct H.
    - destruct (runProject_unmet_trace _ C) as [gs G]. rewrite G in H.
      apply in_app_or in H. destruct H as [H|[H|[]]]; [|discriminate H].
      apply in_map_iff in H. destruct H as (g & E & _). discriminate E. }
  destruct I as (R & M & _). rewrite <- A in R, M. auto.
Qed.

Lemma X6_pulses_in_range_witness :
  In (EvPulse 1470)
     (trace (loop_body (good_inputs 0)) (run [good_inputs 3] initial)) /\
  in_range 1470.
Proof.
  assert (H : In (EvPulse 1470)
                (trace (loop_body (good_inputs 0))
                       (run [good_inputs 3] initial)))
    by (vm_compute; auto 10).
  split; [exact H|].
  exact (proj1 (X6_pulses_in_range [good_inputs 3] (good_inputs 0) 1470 H)).
Defined.

(** ** The Setup screen *)

Section Setup.

Ltac run_menu :=
  unfold exec, trace, menu, setup_buttons, If, IfElse, seq, assign, skip,
    emit, Relay_Off.

Ltac split_ifs :=
  repeat (cbn -[Z.eqb Z.leb Z.ltb s16];
          match goal with
          | |- context [if ?c then _ else _] =>
              destruct c eqn:?; try (exfalso; lia)
          end);
  cbn -[Z.eqb Z.leb Z.ltb s16].

Lemma set_hour_same m : set_hour (hour m) m = m.
Proof. destruct m; reflexivity. Qed.

Lemma set_minute_same m : set_minute (minute m) m = m.
Proof. destruct m; reflexivity. Qed.

Lemma hour_up m :
  screen m = 2 -> 0 <= hour m <= 23 ->
  menu 13 m = (Next, set_hour ((hour m + 1) mod 24) m,
               [EvWriteDS1307 2 ((hour m + 1) mod 24)]).
Proof.
  intros S H. destruct m as [t th d a h mi s r so li rf re sc].
  cbn in S, H. subst sc.
  remember ((h + 1) mod 24) as x eqn:X.
  run_menu. split_ifs; rewrite ?s16_small in * by lia; subst x.
  - replace (h + 1) with 24 by lia. reflexivity.
  - rewrite Z.mod_small by lia. reflexivity.
Qed.

Lemma hour_down m :
  screen m = 2 -> 0 <= hour m <= 23 ->
  menu 14 m = (Next, set_hour ((hour m - 1) mod 24) m,
               [EvWriteDS1307 2 ((hour m - 1) mod 24)]).
Proof.
  intros S H. destruct m as [t th d a h mi s r so li rf re sc].
  cbn in S, H. subst sc.
  remember ((h - 1) mod 24) as x eqn:X.
  run_menu. split_ifs; rewrite ?s16_small in * by lia; subst x.
  - replace h with 0 by lia. reflexivity.
  - rewrite Z.mod_small by lia. reflexivity.
Qed.

Lemma minute_up m :
  screen m = 2 -> 0 <= minute m <= 59 ->
  menu 15 m = (Next, set_minute ((minute m + 1) mod 60) m,
               [EvWriteDS1307 1 ((minute m + 1) mod 60)]).
Proof.
  intros S H. destruct m as [t th d a h mi s r so li rf re sc].
  cbn in S, H. subst sc.
  remember ((mi + 1) mod 60) as x eqn:X.
  run_menu. split_ifs; rewrite ?s16_small in * by lia; subst x.
  - replace (mi + 1) with 60 by lia. reflexivity.
  - rewrite Z.mod_small by lia. reflexivity.
Qed.

Lemma minute_down m :
  screen m = 2 -> 0 <= minute m <= 59 ->
  menu 16 m = (Next, set_minute ((minute m - 1) mod 60) m,
               [EvWriteDS1307 1 ((minute m - 1) mod 60)]).
Proof.
  intros S H. destruct m as [t th d a h mi s r so li rf re sc].
  cbn in S, H. subst sc.
  remember ((mi - 1) mod 60) as x eqn:X.
  run_menu. split_ifs; rewrite ?s16_small in * by lia; subst x.
  - replace mi with 0 by lia. reflexivity.
  - rewrite Z.mod_small by lia. reflexivity.
Qed.

Lemma mod_up_down n h : 0 < n -> 0 <= h < n -> ((h + 1) mod n - 1) mod n = h.
Proof.
  intros Hn H. destruct (Z.eq_dec (h + 1) n) as [E|E].
  - rewrite E, Z.mod_same by lia. replace (0 - 1) with (-1) by lia.
    rewrite <- (Z.mod_add _ 1) by lia. rewrite Z.mod_small by lia. lia.
  - rewrite (Z.mod_small (h + 1)) by lia. rewrite Z.mod_small; lia.
Qed.

Lemma mod_down_up n h : 0 < n -> 0 <= h < n -> ((h - 1) mod n + 1) mod n = h.
Proof.
  intros Hn H. destruct (Z.eq_dec h 0) as [E|E].
  - subst h. replace (0 - 1) with (-1) by lia.
    rewrite <- (Z.mod_add (-1) 1) by lia.
    rewrite (Z.mod_small (-1 + 1 * n)) by lia.
    replace (-1 + 1 * n + 1) with n by lia. now apply Z.mod_same; lia.
  - rewrite (Z.mod_small (h - 1)) by lia. rewrite Z.mod_small; lia.
Qed.

(** Buttons that the current screen does not serve do nothing. *)
Lemma menu_inert b m :
  b <> 1 -> b <> 2 -> b <> 3 ->
  screen m <> 2 \/ (b < 13 \/ 17 < b) ->
  menu b m = (Next, m, []).
Proof.
  intros B1 B2 B3 H. run_menu. split_ifs; reflexivity.
Qed.

(** A write to the clock chip carries the value the variable holds after
    the handler. *)
Lemma menu_writes b m reg val :
  In (EvWriteDS1307 reg val) (trace (menu b) m) ->
  screen (exec (menu b) m) = 2 /\
  ((b = 13 \/ b = 14) /\ reg = 2 /\ val = hour (exec (menu b) m) \/
   (b = 15 \/ b = 16) /\ reg = 1 /\ val = minute (exec (menu b) m) \/
   b = 17 /\ reg = 6 /\ val = TEMP_THRESHOLD (exec (menu b) m)).
Proof.
  run_menu. split_ifs; cbn;
    intros H; repeat (destruct H as [H|H]; try discriminate H);
    try contradiction;
    inversion H; subst; (split; [lia|]);
    first [ left; repeat split; auto; lia
          | right; left; repeat split; auto; lia
          | right; right; repeat split; auto; lia ].
Qed.

End Setup.

(** X7: on the Setup screen, with the hour in 0..23, button 13 advances the
    hour modulo 24 and button 14 takes it back modulo 24; each writes the
    new hour to register 2 of the clock chip and nothing else; pressing one
    after the other restores the machine. *)
Theorem X7_hour_buttons (m : Machine) :
  screen m = 2 -> 0 <= hour m <= 23 ->
  menu 13 m = (Next, set_hour ((hour m + 1) mod 24) m,
               [EvWriteDS1307 2 ((hour m + 1) mod 24)]) /\
  menu 14 m = (Next, set_hour ((hour m - 1) mod 24) m,
               [EvWriteDS1307 2 ((hour m - 1) mod 24)]) /\
  0 <= hour (exec (menu 13) m) <= 23 /\
  0 <= hour (exec (menu 14) m) <= 23 /\
  exec (menu 14) (exec (menu 13) m) = m /\
  exec (menu 13) (exec (menu 14) m) = m.
Proof.
  intros S H.
  pose proof (Z.mod_pos_bound (hour m + 1) 24 ltac:(lia)) as U.
  pose proof (Z.mod_pos_bound (hour m - 1) 24 ltac:(lia)) as D.
  split; [now apply hour_up|]. split; [now apply hour_down|].
  unfold exec. rewrite (hour_up m S H), (hour_down m S H). cbn [fst snd].
  split; [cbn; lia|]. split; [cbn; lia|].
  rewrite hour_down, hour_up by (cbn; auto; lia). cbn [fst snd].
  split.
  - replace (set_hour _ (set_hour _ m)) with
      (set_hour ((((hour m + 1) mod 24) - 1) mod 24) m) by reflexivity.
    rewrite mod_up_down by lia. apply set_hour_same.
  - replace (set_hour _ (set_hour _ m)) with
      (set_hour ((((hour m - 1) mod 24) + 1) mod 24) m) by reflexivity.
    rewrite mod_down_up by lia. apply set_hour_same.
Qed.

Lemma X7_hour_buttons_witness :
  hour (exec (menu 13) late_setup) = 0 /\
  exec (menu 14) (exec (menu 13) late_setup) = late_setup.
Proof.
  destruct (X7_hour_buttons late_setup eq_refl ltac:(cbn; lia))
    as (E & _ & _ & _ & R & _).
  split; [|exact R].
  unfold exec. rewrite E. reflexivity.
Defined.

(** X8: on the Setup screen, with the minute in 0..59, button 15 advances
    the minute modulo 60 and button 16 takes it back modulo 60; each writes
    the new minute to register 1 of the clock chip and nothing else, the
    hour is not carried; pressing one after the other restores the
    machine. *)
Theorem X8_minute_buttons (m : Machine) :
  screen m = 2 -> 0 <= minute m <= 59 ->
  menu 15 m = (Next, set_minute ((minute m + 1) mod 60) m,
               [EvWriteDS1307 1 ((minute m + 1) mod 60)]) /\
  menu 16 m = (Next, set_minute ((minute m - 1) mod 60) m,
               [EvWriteDS1307 1 ((minute m - 1) mod 60)]) /\
  0 <= minute (exec (menu 15) m) <= 59 /\
  0 <= minute (exec (menu 16) m) <= 59 /\
  exec (menu 16) (exec (menu 15) m) = m /\
  exec (menu 15) (exec (menu 16) m) = m.
Proof.
  intros S H.
  pose proof (Z.mod_pos_bound (minute m + 1) 60 ltac:(lia)) as U.
  pose proof (Z.mod_pos_bound (minute m - 1) 60 ltac:(lia)) as D.
  split; [now apply minute_up|]. split; [now apply minute_down|].
  unfold exec. rewrite (minute_up m S H), (minute_down m S H). cbn [fst snd].
  split; [cbn; lia|]. split; [cbn; lia|].
  rewrite minute_down, minute_up by (cbn; auto; lia). cbn [fst snd].
  split.
  - replace (set_minute _ (set_minute _ m)) with
      (set_minute ((((minute m + 1) mod 60) - 1) mod 60) m) by reflexivity.
    rewrite mod_up_down by lia. apply set_minute_same.
  - replace (set_minute _ (set_minute _ m)) with
      (set_minute ((((minute m - 1) mod 60) + 1) mod 60) m) by reflexivity.
    rewrite mod_down_up by lia. apply set_minute_same.
Qed.

Lemma X8_minute_buttons_witness :
  minute (exec (menu 15) late_setup) = 0 /\
  hour (exec (menu 15) late_setup) = 23 /\
  exec (menu 16) (exec (menu 15) late_setup) = late_setup.
Proof.
  destruct (X8_minute_buttons late_setup eq_refl ltac:(cbn; lia))
    as (E & _ & _ & _ & R & _).
  split; [|split; [|exact R]]; unfold exec; rewrite E; reflexivity.
Defined.

(** X9: whenever a button handler writes to the clock chip, the Setup
    screen is showing and the write is of the hour (buttons 13, 14) to
    register 2, of the minute (15, 16) to register 1, or of the temperature
    threshold (17) to register 6, each with the value the variable holds
    after the handler. *)
Theorem X9_clock_writes (b : Z) (m : Machine) (reg val : Z) :
  In (EvWriteDS1307 reg val) (trace (menu b) m) ->
  screen (exec (menu b) m) = 2 /\
  ((b = 13 \/ b = 14) /\ reg = 2 /\ val = hour (exec (menu b) m) \/
   (b = 15 \/ b = 16) /\ reg = 1 /\ val = minute (exec (menu b) m) \/
   b = 17 /\ reg = 6 /\ val = TEMP_THRESHOLD (exec (menu b) m)).
Proof. apply menu_writes. Qed.

Lemma X9_clock_writes_witness :
  In (EvWriteDS1307 6 28) (trace (menu 17) late_setup) /\
  TEMP_THRESHOLD (exec (menu 17) late_setup) = 28.
Proof.
  assert (H : In (EvWriteDS1307 6 28) (trace (menu 17) late_setup))
    by (vm_compute; auto).
  split; [exact H|].
  destruct (X9_clock_writes 17 late_setup 6 28 H) as (_ & K).
  destruct K as [(_ & K & _) | [(_ & K & _) | (_ & _ & K)]];
    [discriminate K | discriminate K | symmetry; exact K].
Defined.

(** X10: a button other than 1, 2, 3 that the current screen does not serve
    (any such button off the Setup screen, and any button outside 13..17
    on it) changes nothing and causes no hardware event. *)
Theorem X10_unserved_buttons (b : Z) (m : Machine) :
  b <> 1 -> b <> 2 -> b <> 3 ->
  screen m <> 2 \/ (b < 13 \/ 17 < b) ->
  menu b m = (Next, m, []).
Proof. apply menu_inert. Qed.

Lemma X10_unserved_buttons_witness :
  menu 13 watering = (Next, watering, []).
Proof.
  apply (X10_unserved_buttons 13 watering); try discriminate.
  left. discriminate.
Defined.

(** ** The servo angle on the Check screen *)

(** X11: in every reachable state the angle printed on the Check screen is
    exact ([angle = 600 + 10 * degrees], the division leaves no remainder),
    lies in 0..180 and is a multiple of 3; at start it is 90. *)
Theorem X11_servo_degrees (l : list Inputs) :
  let m := run l initial in
  angle m = 600 + 10 * servo_degrees m /\
  0 <= servo_degrees m <= 180 /\
  servo_degrees m mod 3 = 0 /\
  servo_degrees initial = 90.
Proof.
  cbv zeta.
  destruct (run_keeps_inv l initial initial_inv) as (R & M & _).
  unfold servo_degrees. revert R M. unfold in_range.
  generalize (angle (run l initial)). intros a R M.
  rewrite (u16_small (a - 600)) by (unfold modulus; lia).
  rewrite Z.quot_div_nonneg by lia.
  assert (D : 0 <= (a - 600) / 10 <= 180)
    by (split; [apply Z.div_pos; lia | apply Z.div_le_upper_bound; lia]).
  rewrite u16_small by (unfold modulus; lia).
  split; [|split; [exact D|split; [|reflexivity]]].
  - Z.div_mod_to_equations. lia.
  - Z.div_mod_to_equations. lia.
Qed.

(** ** The sweep as a wave *)

Section Wave.

Lemma wave_check_ok n :
  In n (List.seq 20 61) -> wave_cycle_both (Z.of_nat n) = true.
Proof.
  revert n. apply forallb_forall. vm_compute. reflexivity.
Qed.

Lemma wave_cycle j up :
  20 <= j <= 80 -> (j = 80 -> up = false) -> (j = 20 -> up = true) ->
  wave_cycle_at j up = true.
Proof.
  intros R Hi Lo.
  assert (C : wave_cycle_both j = true).
  { rewrite <- (Z2Nat.id j) at 1 by lia.
    apply wave_check_ok. apply in_seq. lia. }
  unfold wave_cycle_both in C.
  apply andb_prop in C. destruct C as [Cu Cd].
  destruct up.
  - destruct (j =? 80) eqn:E; [|rewrite orb_false_l in Cu; exact Cu].
    assert (j = 80) by lia. specialize (Hi H). discriminate Hi.
  - destruct (j =? 20) eqn:E; [|rewrite orb_false_l in Cd; exact Cd].
    assert (j = 20) by lia. specialize (Lo H). discriminate Lo.
Qed.

(** Calls with all conditions met follow [wave]. *)
Lemma calls_wave n m :
  conditions_met m = true -> in_range (angle m) ->
  (angle (calls n m), is_up (calls n m)) = Nat.iter n wave (angle m, is_up m).
Proof.
  intros C R. induction n as [|n IH]; [reflexivity|].
  rewrite calls_S, Nat.iter_succ, <- IH.
  destruct (runProject_sweep_step (calls n m)) as [A D].
  - now rewrite calls_keep_conditions.
  - now apply calls_in_range.
  - unfold is_up at 1. rewrite A, D. unfold wave.
    destruct (is_up (calls n m)) eqn:U.
    + destruct (2400 <=? angle (calls n m) + 30); cbn; [reflexivity|].
      unfold is_up in U. now rewrite U.
    + destruct (angle (calls n m) - 30 <=? 600); cbn; [reflexivity|].
      unfold is_up in U. now rewrite U.
Qed.

End Wave.

(** X12: while all conditions stay met, the sweep is periodic with period
    exactly 120 calls: from any state of the sweep the program can be in,
    120 calls bring back the same pulse width and direction, and no smaller
    positive number of calls does. *)
Theorem X12_sweep_period (m : Machine) :
  all_conditions m -> sweep_inv m ->
  (angle (calls 120 m), is_up (calls 120 m)) = (angle m, is_up m) /\
  forall k, (0 < k < 120)%nat ->
            (angle (calls k m), is_up (calls k m)) <> (angle m, is_up m).
Proof.
  intros C (R & M & Hi & Lo). apply conditions_met_iff in C.
  unfold in_range in R.
  assert (J : angle m = 30 * (angle m / 30))
    by (Z.div_mod_to_equations; lia).
  assert (W : wave_cycle_at (angle m / 30) (is_up m) = true)
    by (apply wave_cycle; [lia | intros; apply Hi; lia
                          | intros; apply Lo; lia]).
  unfold wave_cycle_at in W. rewrite <- J in W.
  apply andb_prop in W. destruct W as [P N].
  split.
  - rewrite (calls_wave 120 m C R).
    destruct (Nat.iter 120 wave (angle m, is_up m)) as [a u].
    apply andb_prop in P. destruct P as [Pa Pu].
    apply Z.eqb_eq in Pa. apply Bool.eqb_prop in Pu. congruence.
  - intros k Hk E. rewrite (calls_wave k m C R) in E.
    rewrite forallb_forall in N.
    specialize (N k ltac:(apply in_seq; lia)).
    rewrite E in N. rewrite Z.eqb_refl, Bool.eqb_reflx in N.
    discriminate N.
Qed.

Lemma X12_sweep_period_witness :
  all_conditions watering /\ sweep_inv watering /\
  (angle (calls 120 watering), is_up (calls 120 watering)) =
  (angle watering, is_up watering).
Proof.
  assert (C : all_conditions watering)
    by (unfold all_conditions, Qlt; cbn; lia).
  assert (I : sweep_inv watering)
    by (unfold sweep_inv, in_range, is_up; cbn; repeat split; lia).
  split; [exact C|]. split; [exact I|].
  exact (proj1 (X12_sweep_period watering C I)).
Defined.

(** ** [Init_Device] *)

Section InitDevice.

(** Bits of a byte register after a write. *)
Lemma u8_bits z n :
  Z.testbit (u8 z) n = Z.testbit z n && (0 <=? n) && (n <? 8).
Proof.
  unfold u8. change 256 with (2 ^ 8).
  destruct (Z.ltb_spec n 0) as [N|N].
  - rewrite !Z.testbit_neg_r by lia. reflexivity.
  - replace (0 <=? n) with true by (symmetry; apply Z.leb_le; lia).
    destruct (Z.ltb_spec n 8) as [L|L].
    + rewrite Z.mod_pow2_bits_low by lia. now rewrite !andb_true_r.
    + rewrite Z.mod_pow2_bits_high by lia. now rewrite andb_false_r.
Qed.

(** [x & ~k] and [x | k] bit by bit, for a byte [k]. *)
Lemma clear_bits x k n :
  Z.testbit (u8 (Z.land x (Z.lnot k))) n =
  Z.testbit x n && negb (Z.testbit k n) && (0 <=? n) && (n <? 8).
Proof.
  rewrite u8_bits. destruct (Z.leb_spec 0 n) as [N|N].
  - rewrite Z.land_spec, Z.lnot_spec by lia. reflexivity.
  - rewrite !andb_false_r. reflexivity.
Qed.

Lemma or_bits x k n :
  Z.testbit (u8 (Z.lor x k)) n =
  (Z.testbit x n || Z.testbit k n) && (0 <=? n) && (n <? 8).
Proof. rewrite u8_bits, Z.lor_spec. reflexivity. Qed.

(** The registers after [Init_Device], one by one. *)
Lemma Init_Device_registers s :
  Init_Device s PCA0MD = 0x00 /\ Init_Device s PCA0CN = 0x40 /\
  Init_Device s PCA0CPM0 = 0xC2 /\ Init_Device s XBR1 = 0x41 /\
  Init_Device s ADC0CN = 0x80 /\ Init_Device s AMX0N = 0x1F /\
  Init_Device s REF0CN = 0x08 /\ Init_Device s OSCICN = 0xC3 /\
  Init_Device s FLSCL = 0x90 /\ Init_Device s CLKSEL = 0x03 /\
  Init_Device s P0MDOUT = u8 (Z.lor (u8 (Z.lor (s P0MDOUT) 0x01)) 0x04) /\
  Init_Device s P1MDOUT =
    u8 (Z.land (u8 (Z.lor (s P1MDOUT) 0x01)) (Z.lnot 0x02)) /\
  Init_Device s P1 = u8 (Z.lor (s P1) 0x02) /\
  Init_Device s P0 = u8 (Z.land (s P0) (Z.lnot 0x04)) /\
  Init_Device s P2MDIN = u8 (Z.land (s P2MDIN) (Z.lnot 0x07)).
Proof. repeat split. Qed.

(** Membership of a bit position in a small mask, decided by cases. *)
Lemma small_bit n :
  0 <= n < 8 ->
  n = 0 \/ n = 1 \/ n = 2 \/ n = 3 \/ n = 4 \/ n = 5 \/ n = 6 \/ n = 7.
Proof. lia. Qed.

Lemma Init_Device_port_bits s n :
  Z.testbit (Init_Device s P0) n =
    Z.testbit (s P0) n && negb (n =? 2) && (0 <=? n) && (n <? 8) /\
  Z.testbit (Init_Device s P0MDOUT) n =
    (Z.testbit (s P0MDOUT) n || (n =? 0) || (n =? 2)) &&
    (0 <=? n) && (n <? 8) /\
  Z.testbit (Init_Device s P1MDOUT) n =
    (Z.testbit (s P1MDOUT) n || (n =? 0)) && negb (n =? 1) &&
    (0 <=? n) && (n <? 8) /\
  Z.testbit (Init_Device s P1) n =
    (Z.testbit (s P1) n || (n =? 1)) && (0 <=? n) && (n <? 8) /\
  Z.testbit (Init_Device s P2MDIN) n =
    Z.testbit (s P2MDIN) n && negb (n <? 3) && (0 <=? n) && (n <? 8).
Proof.
  destruct (Init_Device_registers s)
    as (_ & _ & _ & _ & _ & _ & _ & _ & _ & _ & -> & -> & -> & -> & ->).
  rewrite !clear_bits, !or_bits.
  destruct (Z.leb_spec 0 n) as [N|N];
    [|rewrite !andb_false_r; repeat split].
  destruct (Z.ltb_spec n 8) as [L|L];
    [|rewrite !andb_false_r; repeat split].
  generalize (Z.testbit (s P0) n) (Z.testbit (s P0MDOUT) n)
    (Z.testbit (s P1MDOUT) n) (Z.testbit (s P1) n) (Z.testbit (s P2MDIN) n).
  intros b0 b1 b2 b3 b4.
  destruct (small_bit n (conj N L))
    as [->|[->|[->|[->|[->|[->|[->| ->]]]]]]];
    destruct b0, b1, b2, b3, b4; repeat split.
Qed.

End InitDevice.

(** X13: whatever the registers held before, [Init_Device] leaves the relay
    pin P0.2 low and the other bits of P0 as they were; it sets P0.0 and
    P0.2 to push-pull, P1.0 to push-pull and P1.1 to open-drain with its
    latch high, and P2.0..P2.2 to analog, changing no other bit of these
    port registers; the watchdog bit of PCA0MD ends cleared. *)
Theorem X13_init_ports (s : SFRs) (n : Z) :
  Z.testbit (Init_Device s P0) n =
    Z.testbit (s P0) n && negb (n =? 2) && (0 <=? n) && (n <? 8) /\
  Z.testbit (Init_Device s P0MDOUT) n =
    (Z.testbit (s P0MDOUT) n || (n =? 0) || (n =? 2)) &&
    (0 <=? n) && (n <? 8) /\
  Z.testbit (Init_Device s P1MDOUT) n =
    (Z.testbit (s P1MDOUT) n || (n =? 0)) && negb (n =? 1) &&
    (0 <=? n) && (n <? 8) /\
  Z.testbit (Init_Device s P1) n =
    (Z.testbit (s P1) n || (n =? 1)) && (0 <=? n) && (n <? 8) /\
  Z.testbit (Init_Device s P2MDIN) n =
    Z.testbit (s P2MDIN) n && negb (n <? 3) && (0 <=? n) && (n <? 8) /\
  Z.testbit (Init_Device s PCA0MD) 6 = false.
Proof.
  destruct (Init_Device_port_bits s n) as (A & B & C & D & E).
  repeat (split; [assumption|]). reflexivity.
Qed.

(** X14: [Init_Device] is idempotent: running it again on its own result
    changes no register, so a second initialisation cannot disturb the
    relay or the port modes. *)
Theorem X14_init_idempotent (s : SFRs) (r : Reg) :
  Init_Device (Init_Device s) r = Init_Device s r.
Proof.
  destruct r; try reflexivity; apply Z.bits_inj'; intros n _;
    destruct (Init_Device_port_bits (Init_Device s) n)
      as (A & B & C & D & E);
    destruct (Init_Device_port_bits s n) as (A' & B' & C' & D' & E').
  - rewrite B, B'.
    destruct (Z.testbit (s P0MDOUT) n), (n =? 0), (n =? 2), (0 <=? n),
      (n <? 8); reflexivity.
  - rewrite C, C'.
    destruct (Z.testbit (s P1MDOUT) n), (n =? 0), (n =? 1), (0 <=? n),
      (n <? 8); reflexivity.
  - rewrite D, D'.
    destruct (Z.testbit (s P1) n), (n =? 1), (0 <=? n), (n <? 8);
      reflexivity.
  - rewrite A, A'.
    destruct (Z.testbit (s P0) n), (n =? 2), (0 <=? n), (n <? 8);
      reflexivity.
  - rewrite E, E'.
    destruct (Z.testbit (s P2MDIN) n), (n <? 3), (0 <=? n), (n <? 8);
      reflexivity.
Qed.
